(** * A CSV data analyzer with two front-ends

    Shallow embedding of [Analyzer_app.py] (the browser front-end) and
    [data_analyzer_tk.py] (the desktop front-end), followed by the properties
    of the loader, the summarizer and the plotter.

    A column is of one of four kinds: int64, float64, bool or object (text);
    other dtypes are not modelled.  An int64 value is an integer, and int64
    arithmetic wraps around; a float64 value is a rational, an infinity or
    NaN, and the rounding of float64 arithmetic is the function [round] of
    the class [Binary64], about which nothing is assumed.  The sign of a
    float64 zero is not represented.  What the plotting library computes for a
    histogram is the function [hist] of the class [Plotting], about which
    nothing is assumed either. *)

From Stdlib Require Import List String Ascii ZArith QArith Qround Qabs Bool Lia
  Lqa DecimalString.
Import ListNotations.

Local Open Scope string_scope.
Local Open Scope list_scope.

(** ** Python values, exceptions and the result of a call that may raise *)

Module Py.

Inductive ExnKind :=
| TypeError
| ValueError
| KeyError
| OtherError.

(** An exception: its class and [str(e)]. *)
Record Exn := Raise { kind : ExnKind; description : string }.

Definition Result (A : Type) : Type := (Exn + A)%type.

Definition ret {A} (a : A) : Result A := inr a.

Definition bind {A B} (m : Result A) (k : A -> Result B) : Result B :=
  match m with
  | inl e => inl e
  | inr a => k a
  end.

(** A float64: a rational, an infinity or NaN. *)
Inductive Float :=
| Finite (q : Q)
| PosInf
| NegInf
| NaN.

(** Rounding to float64: the float64 nearest to a rational, an infinity when
    the rational is out of range. *)
Class Binary64 := { round : Q -> Float }.

(** A number as NumPy returns it: [numpy.int64] or [numpy.float64]. *)
Inductive Number :=
| Int (z : Z)
| Flt (x : Float).

(** What [np.max] and [np.min] return on a column: a number, a
    [numpy.bool_] or a string. *)
Inductive Scalar :=
| Num (n : Number)
| Bool (b : bool)
| Str (s : string).

(** The int64 that a mathematical integer wraps around to. *)
Definition wrap64 (z : Z) : Z := ((z + 2 ^ 63) mod 2 ^ 64 - 2 ^ 63)%Z.

(** The float64 nearest to an int64. *)
Definition of_int `{Binary64} (z : Z) : Float := round (inject_Z z).

(** [a - b] on float64. *)
Definition fsub `{Binary64} (a b : Float) : Float :=
  match a, b with
  | NaN, _ | _, NaN => NaN
  | Finite x, Finite y => round (x - y)
  | Finite _, PosInf => NegInf
  | Finite _, NegInf => PosInf
  | PosInf, PosInf => NaN
  | PosInf, _ => PosInf
  | NegInf, NegInf => NaN
  | NegInf, _ => NegInf
  end.

Definition nsub `{Binary64} (a b : Number) : Number :=
  match a, b with
  | Int x, Int y => Int (wrap64 (x - y))
  | Int x, Flt y => Flt (fsub (of_int x) y)
  | Flt x, Int y => Flt (fsub x (of_int y))
  | Flt x, Flt y => Flt (fsub x y)
  end.

Definition int_of_bool (b : bool) : Number := Int (if b then 1 else 0)%Z.

(** [a - b]: int64 subtraction wraps around, float64 subtraction rounds, a
    bool next to a number counts as 0 or 1; NumPy refuses to subtract two
    bools and Python to subtract strings. *)
Definition sub `{Binary64} (a b : Scalar) : Result Number :=
  match a, b with
  | Num x, Num y => inr (nsub x y)
  | Num x, Bool y => inr (nsub x (int_of_bool y))
  | Bool x, Num y => inr (nsub (int_of_bool x) y)
  | Bool _, Bool _ =>
      inl (Raise TypeError "numpy boolean subtract, the `-` operator, is not supported, use the bitwise_xor, the `^` operator, or the logical_xor function instead.")
  | Str _, Str _ =>
      inl (Raise TypeError "unsupported operand type(s) for -: 'str' and 'str'")
  | _, _ =>
      inl (Raise TypeError "unsupported operand type(s) for -")
  end.

(** Round to the nearest integer, ties to even. *)
Definition round_half_even (x : Q) : Z :=
  let f := Qfloor x in
  match Qcompare (x - inject_Z f) (1 # 2) with
  | Lt => f
  | Gt => (f + 1)%Z
  | Eq => if Z.even f then f else (f + 1)%Z
  end.

Definition digits (n : Z) : string :=
  NilZero.string_of_uint (N.to_uint (Z.to_N n)).

Definition two_digits (n : Z) : string :=
  if (n <? 10)%Z then "0" ++ digits n else digits n.

(** [f"{x:.2f}"] for a rational: sign, integer part, two decimals. *)
Definition hundredths (x : Q) : Z := round_half_even (Qabs x * 100).

Definition format_2f_Q (x : Q) : string :=
  let h := hundredths x in
  (if Qlt_le_dec x 0 then "-" else "")
    ++ digits (h / 100) ++ "." ++ two_digits (h mod 100).

(** [f"{n:.2f}"] for a number. *)
Definition format_2f (n : Number) : string :=
  match n with
  | Int z => (if (z <? 0)%Z then "-" else "") ++ digits (Z.abs z) ++ ".00"
  | Flt (Finite x) => format_2f_Q x
  | Flt PosInf => "inf"
  | Flt NegInf => "-inf"
  | Flt NaN => "nan"
  end.

End Py.

Notation "x <- m ;; k" := (Py.bind m (fun x => k))
  (at level 61, m at next level, right associativity).

(** ** The fragment of pandas, NumPy and Matplotlib that the program calls *)

Module Pandas.
Import Py.

(** A column, by dtype.  An object column holds text, with missing cells. *)
Inductive Series :=
| Int64 (values : list Z)
| Float64 (values : list Float)
| Boolean (values : list bool)
| Object (values : list (option string)).

(** A table: named columns, in order. *)
Definition DataFrame := list (string * Series).

(** [df.columns] *)
Definition columns (df : DataFrame) : list string := map fst df.

(** [name in df.columns] *)
Definition has_column (df : DataFrame) (name : string) : bool :=
  existsb (String.eqb name) (columns df).

(** [df[name]] *)
Fixpoint getitem (df : DataFrame) (name : string) : Result Series :=
  match df with
  | [] => inl (Raise KeyError name)
  | (n, s) :: rest => if String.eqb name n then inr s else getitem rest name
  end.

(** [pd.api.types.is_numeric_dtype(series)]: int64, float64 and bool. *)
Definition is_numeric_dtype (s : Series) : bool :=
  match s with
  | Int64 _ | Float64 _ | Boolean _ => true
  | Object _ => false
  end.

(** The dtypes under [np.number], which [describe] selects: int64 and
    float64, not bool. *)
Definition is_number_dtype (s : Series) : bool :=
  match s with
  | Int64 _ | Float64 _ => true
  | Boolean _ | Object _ => false
  end.

(** [series.dropna()] on an object column. *)
Fixpoint dropna {A} (l : list (option A)) : list A :=
  match l with
  | [] => []
  | Some a :: r => a :: dropna r
  | None :: r => dropna r
  end.

Definition is_nan (x : Float) : bool :=
  match x with
  | NaN => true
  | _ => false
  end.

(** [series.dropna()] on a float64 column. *)
Definition drop_nan (l : list Float) : list Float :=
  filter (fun x => negb (is_nan x)) l.

(** [a <= b] on float64 values that are not NaN. *)
Definition fle (a b : Float) : bool :=
  match a, b with
  | NegInf, _ => true
  | _, PosInf => true
  | Finite x, Finite y => Qle_bool x y
  | _, _ => false
  end.

Definition fmax (a b : Float) : Float := if fle a b then b else a.
Definition fmin (a b : Float) : Float := if fle a b then a else b.

Definition float_max (l : list Float) : option Float :=
  match l with
  | [] => None
  | x :: r => Some (fold_left fmax r x)
  end.

Definition float_min (l : list Float) : option Float :=
  match l with
  | [] => None
  | x :: r => Some (fold_left fmin r x)
  end.

Definition int_max (l : list Z) : option Z :=
  match l with
  | [] => None
  | x :: r => Some (fold_left Z.max r x)
  end.

Definition int_min (l : list Z) : option Z :=
  match l with
  | [] => None
  | x :: r => Some (fold_left Z.min r x)
  end.

Definition smax (a b : string) : string := if String.leb a b then b else a.
Definition smin (a b : string) : string := if String.leb a b then a else b.

Definition all_present {A} (l : list (option A)) : bool :=
  forallb (fun o => match o with Some _ => true | None => false end) l.

Definition float_or_nan (o : option Float) : Float :=
  match o with
  | Some x => x
  | None => NaN
  end.

Definition int_or_nan (o : option Z) : Number :=
  match o with
  | Some z => Int z
  | None => Flt NaN
  end.

(** [np.max(series)]: the greatest value, missing values left out; NaN for
    a column without values.  Strings do not compare with a missing cell. *)
Definition np_max (s : Series) : Result Scalar :=
  match s with
  | Int64 vs => inr (Num (int_or_nan (int_max vs)))
  | Float64 vs => inr (Num (Flt (float_or_nan (float_max (drop_nan vs)))))
  | Boolean [] => inr (Num (Flt NaN))
  | Boolean vs => inr (Bool (existsb (fun b => b) vs))
  | Object vs =>
      match dropna vs with
      | [] => inr (Num (Flt NaN))
      | x :: r =>
          if all_present vs then inr (Str (fold_left smax r x))
          else inl (Raise TypeError "not supported between instances of 'str' and 'float'")
      end
  end.

(** [np.min(series)] *)
Definition np_min (s : Series) : Result Scalar :=
  match s with
  | Int64 vs => inr (Num (int_or_nan (int_min vs)))
  | Float64 vs => inr (Num (Flt (float_or_nan (float_min (drop_nan vs)))))
  | Boolean [] => inr (Num (Flt NaN))
  | Boolean vs => inr (Bool (forallb (fun b => b) vs))
  | Object vs =>
      match dropna vs with
      | [] => inr (Num (Flt NaN))
      | x :: r =>
          if all_present vs then inr (Str (fold_left smin r x))
          else inl (Raise TypeError "not supported between instances of 'str' and 'float'")
      end
  end.

(** One entry of [df.describe()].  For a number column: count, min and max,
    as float64 (the mean, the standard deviation and the quartiles are float64
    computations that the program does not inspect; they are left out); for a
    bool or text column: count and number of distinct values. *)
Inductive Stats :=
| NumStats (count : nat) (min max : Float)
| ObjStats (count unique : nat).

Definition int_stat `{Binary64} (o : option Z) : Float :=
  match o with
  | Some z => of_int z
  | None => NaN
  end.

Definition describe_series `{Binary64} (s : Series) : Stats :=
  match s with
  | Int64 vs =>
      NumStats (List.length vs) (int_stat (int_min vs)) (int_stat (int_max vs))
  | Float64 vs =>
      let xs := drop_nan vs in
      NumStats (List.length xs) (float_or_nan (float_min xs))
        (float_or_nan (float_max xs))
  | Boolean vs =>
      ObjStats (List.length vs) (List.length (nodup Bool.bool_dec vs))
  | Object vs =>
      let xs := dropna vs in
      ObjStats (List.length xs) (List.length (nodup string_dec xs))
  end.

Definition number_column (c : string * Series) : bool :=
  is_number_dtype (snd c).

(** [df.describe()]: the number columns, in the table's order; when the
    table has no number column, every column; a table without columns cannot
    be described. *)
Definition describe `{Binary64} (df : DataFrame) : Result (list (string * Stats)) :=
  match df with
  | [] => inl (Raise ValueError "Cannot describe a DataFrame without columns")
  | _ =>
      let data :=
        match filter number_column df with
        | [] => df
        | selected => selected
        end in
      inr (map (fun c => (fst c, describe_series (snd c))) data)
  end.

(** A histogram: the count of each bin and the bin edges. *)
Record Histogram := { counts : list nat; edges : list Float }.

(** [series.hist(bins=bins)]: pandas hands the column's values to Matplotlib
    and NumPy, which bin them in float64 arithmetic or raise. *)
Class Plotting := { hist : Series -> nat -> Result Histogram }.

(** [df.head()]: the first five rows. *)
Definition head_series (s : Series) : Series :=
  match s with
  | Int64 vs => Int64 (firstn 5 vs)
  | Float64 vs => Float64 (firstn 5 vs)
  | Boolean vs => Boolean (firstn 5 vs)
  | Object vs => Object (firstn 5 vs)
  end.

Definition head (df : DataFrame) : DataFrame :=
  map (fun c => (fst c, head_series (snd c))) df.

End Pandas.
(** ** The browser front-end: [Analyzer_app.py] *)

Module Web.
Import Py Pandas.

Record UploadedFile := { name : string; getvalue : list Byte.byte }.

(** A drawn histogram: title, axis labels and the bars. *)
Record Figure := {
  title : string;
  xlabel : string;
  ylabel : string;
  bars : Histogram
}.

(** What a run of the script puts on the page. *)
Inductive Element :=
| Title (text : string)
| Markdown (text : string)
| Header (text : string)
| Subheader (text : string)
| Success (text : string)
| Error (text : string)
| Warning (text : string)
| Info (text : string)
| Preview (rows : DataFrame)
| Dataframe (stats : list (string * Stats))
| Table (rows : list (string * string))
| Pyplot (fig : Figure).

(** [st.session_state] *)
Record SessionState := {
  df : option DataFrame;
  last_uploaded_name : option string;
  show_stats : bool;
  show_plot : bool;
  plot_col : option string
}.

Definition initial : SessionState :=
  {| df := None; last_uploaded_name := None;
     show_stats := false; show_plot := false; plot_col := None |}.

Definition set_df (v : option DataFrame) (s : SessionState) : SessionState :=
  {| df := v; last_uploaded_name := last_uploaded_name s;
     show_stats := show_stats s; show_plot := show_plot s;
     plot_col := plot_col s |}.

Definition set_last_uploaded_name (v : string) (s : SessionState) : SessionState :=
  {| df := df s; last_uploaded_name := Some v;
     show_stats := show_stats s; show_plot := show_plot s;
     plot_col := plot_col s |}.

Definition press_stats (s : SessionState) : SessionState :=
  {| df := df s; last_uploaded_name := last_uploaded_name s;
     show_stats := true; show_plot := false; plot_col := plot_col s |}.

Definition press_histogram (col : string) (s : SessionState) : SessionState :=
  {| df := df s; last_uploaded_name := last_uploaded_name s;
     show_stats := false; show_plot := true; plot_col := Some col |}.

(** The output of a function that writes to the page and may raise. *)
Definition Page : Type := (list Element * option Exn)%type.

(** The guard of line 98: no table is held, or the name of the file in the
    uploader is not [last_uploaded_name]. *)
Definition file_changed (f : UploadedFile) (s : SessionState) : bool :=
  match df s with None => true | Some _ => false end
  || negb (match last_uploaded_name s with
           | Some n => String.eqb (name f) n
           | None => false
           end).

Section Loader.
(** [bytes.decode("utf-8")] and [pd.read_csv] on the decoded text. *)
Variable decode_utf8 : list Byte.byte -> Result string.
Variable read_csv : string -> Result DataFrame.

Definition load_data (uploaded_file : option UploadedFile) (s : SessionState)
  : SessionState * list Element :=
  match uploaded_file with
  | None => (s, [])
  | Some f =>
      match (text <- decode_utf8 (getvalue f) ;; read_csv text) with
      | inr table =>
          (set_df (Some table) s,
           [Success ("File loaded successfully: **" ++ name f ++ "**")])
      | inl e =>
          (set_df None s,
           [Error ("Error loading file. Please check the format. Details: "
                   ++ description e)])
      end
  end.

(** Lines 96-100 of the script: load when a file is there and either no
    table is held or the file's name is not the last one seen. *)
Definition upload_stage (uploaded_file : option UploadedFile) (s : SessionState)
  : SessionState * list Element :=
  match uploaded_file with
  | None => (s, [])
  | Some f =>
      if file_changed f s then
        let (s', out) := load_data (Some f) s in
        (set_last_uploaded_name (name f) s', out)
      else (s, [])
  end.
End Loader.

Section Analysis.
Context {fp : Binary64} {plt : Plotting}.

(** The loop of [show_statistics]: one row per column of the summary. *)
Fixpoint range_data (table : DataFrame) (cols : list string)
  : Result (list (string * string)) :=
  match cols with
  | [] => inr []
  | col :: rest =>
      hi <- (s <- getitem table col ;; np_max s) ;;
      lo <- (s <- getitem table col ;; np_min s) ;;
      data_range <- sub hi lo ;;
      rows <- range_data table rest ;;
      ret ((col, format_2f data_range) :: rows)
  end.

Definition show_statistics (table : DataFrame) : Page :=
  let h1 := Subheader "📊 Descriptive Statistics (Pandas)" in
  let h2 := Subheader "🔢 Additional NumPy Analysis (Range)" in
  match describe table with
  | inl e => ([h1], Some e)
  | inr stats_df =>
      match range_data table (map fst stats_df) with
      | inl e => ([h1; Dataframe stats_df; h2], Some e)
      | inr [] =>
          (* [pd.DataFrame([]).set_index("Column")] *)
          ([h1; Dataframe stats_df; h2],
           Some (Raise KeyError "None of ['Column'] are in the columns"))
      | inr rows => ([h1; Dataframe stats_df; h2; Table rows], None)
      end
  end.

Definition invalid_column : Element :=
  Warning "Please select a valid numerical column to plot.".

Definition visualize_data (table : DataFrame) (column_name : string) : Page :=
  if negb (String.eqb column_name "") then
    if has_column table column_name then
      match getitem table column_name with
      | inl e => ([], Some e)
      | inr s =>
          if is_numeric_dtype s then
            match hist s 20 with
            | inl e => ([Subheader ("📈 Histogram of **" ++ column_name ++ "**")], Some e)
            | inr h =>
                ([Subheader ("📈 Histogram of **" ++ column_name ++ "**");
                  Pyplot {| title := "Histogram of " ++ column_name;
                            xlabel := column_name;
                            ylabel := "Frequency";
                            bars := h |}],
                 None)
            end
          else ([invalid_column], None)
      end
    else ([invalid_column], None)
  else ([invalid_column], None).

(** One run of the script: the file in the uploader, the buttons pressed in
    this run and the position chosen in the select box. *)
Record Rerun := {
  uploaded_file : option UploadedFile;
  stats_button : bool;
  histogram_button : bool;
  selected_index : nat
}.

Definition numerical_cols (table : DataFrame) : list string :=
  filter (fun col => match getitem table col with
                     | inr s => is_numeric_dtype s
                     | inl _ => false
                     end)
         (columns table).

(** Lines 109-133: the two buttons and the column selector. *)
Definition controls (r : Rerun) (table : DataFrame) (s : SessionState)
  : SessionState * list Element :=
  let s1 := if stats_button r then press_stats s else s in
  match numerical_cols table with
  | [] => (s1, [Warning "No numerical columns found for visualization."])
  | (first :: _) as options =>
      let selected_col := nth (selected_index r) options first in
      (if histogram_button r then press_histogram selected_col s1 else s1, [])
  end.

(** Lines 138-142: the output area. *)
Definition output_area (table : DataFrame) (s : SessionState) : Page :=
  let (out1, raised) :=
    if show_stats s then show_statistics table else ([], None) in
  match raised with
  | Some e => (out1, Some e)
  | None =>
      match show_plot s, plot_col s with
      | true, Some col =>
          if String.eqb col "" then (out1, None)
          else let (out2, r2) := visualize_data table col in (out1 ++ out2, r2)
      | _, _ => (out1, None)
      end
  end.

(** Lines 103-145. *)
Definition analysis_stage (r : Rerun) (s : SessionState)
  : SessionState * Page :=
  match df s with
  | Some table =>
      let (s1, out1) := controls r table s in
      let (out2, raised) := output_area table s1 in
      (s1, ([Header "Data Preview"; Preview (head table)] ++ out1
              ++ [Markdown "---"] ++ out2, raised))
  | None => (s, ([Info "Upload a CSV file above to begin the analysis."], None))
  end.

End Analysis.

Section Script.
Context {fp : Binary64} {plt : Plotting}.
Variable decode_utf8 : list Byte.byte -> Result string.
Variable read_csv : string -> Result DataFrame.

Definition script (r : Rerun) (s : SessionState) : SessionState * Page :=
  let (s1, out1) := upload_stage decode_utf8 read_csv (uploaded_file r) s in
  let '(s2, (out2, raised)) := analysis_stage r s1 in
  (s2,
   ([Title "Data Analysis Web App";
     Markdown "Upload a CSV file to analyze and visualize your data using **Pandas**, **NumPy**, and **Matplotlib**."]
      ++ out1 ++ out2, raised)).
End Script.

End Web.
(** ** The desktop front-end: [data_analyzer_tk.py] *)

Module Desktop.
Import Py Pandas.

Definition newline : string := String (ascii_of_nat 10) "".

Inductive Style := Green | Red.

(** What is inserted in the text area: plain text, or the printed summary
    [stats_df.to_string()]. *)
Inductive Chunk :=
| Text (text : string)
| StatsTable (stats : list (string * Stats)).

Record Figure := {
  title : string;
  xlabel : string;
  ylabel : string;
  bars : Histogram
}.

(** The global [df] and the widgets the handlers touch. *)
Record App := {
  df : option DataFrame;
  output_text : list Chunk;
  status_label : string * Style;
  analyze_button : bool;
  visualize_button : bool;
  col_select_var : string;
  col_select_menu : list string;
  plot_frame : list Figure;
  message_boxes : list (string * string)
}.

Definition initial : App :=
  {| df := None; output_text := []; status_label := ("No file loaded.", Red);
     analyze_button := false; visualize_button := false;
     col_select_var := ""; col_select_menu := [];
     plot_frame := []; message_boxes := [] |}.

Definition showerror (box_title message : string) (s : App) : App :=
  {| df := df s; output_text := output_text s; status_label := status_label s;
     analyze_button := analyze_button s; visualize_button := visualize_button s;
     col_select_var := col_select_var s; col_select_menu := col_select_menu s;
     plot_frame := plot_frame s;
     message_boxes := message_boxes s ++ [(box_title, message)] |}.

Definition set_output (chunks : list Chunk) (s : App) : App :=
  {| df := df s; output_text := chunks; status_label := status_label s;
     analyze_button := analyze_button s; visualize_button := visualize_button s;
     col_select_var := col_select_var s; col_select_menu := col_select_menu s;
     plot_frame := plot_frame s; message_boxes := message_boxes s |}.

Definition set_plot (figures : list Figure) (s : App) : App :=
  {| df := df s; output_text := output_text s; status_label := status_label s;
     analyze_button := analyze_button s; visualize_button := visualize_button s;
     col_select_var := col_select_var s; col_select_menu := col_select_menu s;
     plot_frame := figures; message_boxes := message_boxes s |}.

Definition set_col_select_var (col : string) (s : App) : App :=
  {| df := df s; output_text := output_text s; status_label := status_label s;
     analyze_button := analyze_button s; visualize_button := visualize_button s;
     col_select_var := col; col_select_menu := col_select_menu s;
     plot_frame := plot_frame s; message_boxes := message_boxes s |}.

(** [file_path.split('/')[-1]] *)
Fixpoint last_segment (acc path : string) : string :=
  match path with
  | EmptyString => acc
  | String c rest =>
      if Ascii.eqb c "/" then last_segment "" rest
      else last_segment (acc ++ String c "") rest
  end.

Definition numerical_cols (table : DataFrame) : list string :=
  filter (fun col => match getitem table col with
                     | inr s => is_numeric_dtype s
                     | inl _ => false
                     end)
         (columns table).

Section Loader.
(** [pd.read_csv(file_path)]: reads and parses the file at that path. *)
Variable read_csv : string -> Result DataFrame.

(** [file_path] is what the file dialog returned, empty when cancelled. *)
Definition load_data (file_path : string) (s : App) : App :=
  if String.eqb file_path "" then s
  else
    match read_csv file_path with
    | inr table =>
        let cols := numerical_cols table in
        {| df := Some table;
           output_text := [];
           status_label := (("File loaded: " ++ last_segment "" file_path)%string, Green);
           analyze_button := true;
           visualize_button := true;
           col_select_var := hd "" cols;
           col_select_menu := cols;
           plot_frame := plot_frame s;
           message_boxes := message_boxes s |}
    | inl e =>
        {| df := None;
           output_text := output_text s;
           status_label := (("Error loading file: " ++ description e)%string, Red);
           analyze_button := false;
           visualize_button := false;
           col_select_var := col_select_var s;
           col_select_menu := col_select_menu s;
           plot_frame := plot_frame s;
           message_boxes :=
             message_boxes s
               ++ [("Loading Error",
                    ("Could not load file. Details: " ++ description e)%string)] |}
    end.
End Loader.

Section Analysis.
Context {fp : Binary64} {plt : Plotting}.

(** The loop of [show_statistics]: the lines inserted so far, and the
    exception that stopped it, if any. *)
Fixpoint range_lines (table : DataFrame) (cols : list string)
  : list Chunk * option Exn :=
  match cols with
  | [] => ([], None)
  | col :: rest =>
      match getitem table col with
      | inl e => ([], Some e)
      | inr s =>
          if is_numeric_dtype s then
            match (hi <- np_max s ;; lo <- np_min s ;; sub hi lo) with
            | inl e => ([], Some e)
            | inr data_range =>
                let (lines, raised) := range_lines table rest in
                (Text ("Range for **" ++ col ++ "**: " ++ format_2f data_range
                         ++ newline) :: lines,
                 raised)
            end
          else range_lines table rest
      end
  end.

Definition no_dataset : string := "Please load a dataset first.".

Definition show_statistics (s : App) : App * option Exn :=
  match df s with
  | None => (showerror "Error" no_dataset s, None)
  | Some table =>
      match describe table with
      | inl e => (set_output [] s, Some e)
      | inr stats_df =>
          let (lines, raised) := range_lines table (map fst stats_df) in
          (set_output
             ([Text ("### Descriptive Statistics (Pandas) ###" ++ newline ++ newline);
               StatsTable stats_df;
               Text (newline ++ newline
                       ++ "### Additional NumPy Analysis (Range) ###" ++ newline)]
                ++ lines) s,
           raised)
      end
  end.

Definition invalid_column : string :=
  "Please select a valid numerical column for visualization.".

Definition visualize_data (s : App) : App * option Exn :=
  match df s with
  | None => (showerror "Error" no_dataset s, None)
  | Some table =>
      let column_name := col_select_var s in
      if String.eqb column_name "" then (showerror "Error" invalid_column s, None)
      else if negb (has_column table column_name) then
        (showerror "Error" invalid_column s, None)
      else
        match getitem table column_name with
        | inl e => (s, Some e)
        | inr col =>
            if negb (is_numeric_dtype col) then
              (showerror "Error" invalid_column s, None)
            else
              match hist col 20 with
              | inl e => (set_plot [] s, Some e)
              | inr h =>
                  (set_plot [{| title := "Histogram of " ++ column_name;
                                xlabel := column_name;
                                ylabel := "Frequency";
                                bars := h |}] s,
                   None)
              end
        end
  end.

End Analysis.

(** What the user does: press a button (the dialog's answer comes with the
    load button) or pick an entry of the column menu. *)
Inductive Event :=
| PressLoad (file_path : string)
| PressStatistics
| PressPlot
| Pick (col : string).

Section Loop.
Context {fp : Binary64} {plt : Plotting}.
Variable read_csv : string -> Result DataFrame.

(** A disabled button does not call its handler; an exception raised by a
    handler is reported by the event loop, which goes on. *)
Definition handle (ev : Event) (s : App) : App :=
  match ev with
  | PressLoad file_path => load_data read_csv file_path s
  | PressStatistics =>
      if analyze_button s then fst (show_statistics s) else s
  | PressPlot =>
      if visualize_button s then fst (visualize_data s) else s
  | Pick col =>
      if existsb (String.eqb col) (col_select_menu s)
      then set_col_select_var col s else s
  end.

Definition mainloop (events : list Event) (s : App) : App :=
  fold_left (fun st ev => handle ev st) events s.
End Loop.

End Desktop.

(** ** Sample tables, files and libraries *)

Module Samples.
Import Py Pandas.

Definition people : DataFrame :=
  [("name", Object [Some "alice"; Some "bob"]);
   ("age", Int64 [30; 25]%Z)].

Definition names_only : DataFrame :=
  [("name", Object [Some "alice"; Some "bob"])].

Definition five : DataFrame :=
  [("x", Int64 [1; 2; 3; 4; 5]%Z)].


Definition flags : DataFrame :=
  [("flag", Boolean [true; false])].

(** Rounding in the examples: their numbers are small integers, which float64
    holds exactly. *)
#[export] Instance exact : Binary64 := {| round := Finite |}.

(** Plotting in the examples: a back-end that cannot draw, every histogram
    call raises. *)
#[export] Instance headless : Plotting :=
  {| hist := fun _ _ => inl (Raise OtherError "no display") |}.

(** Decoding of plain ASCII content. *)
Definition ascii_text (content : list Byte.byte) : Result string :=
  inr (string_of_list_byte content).

(** The parse of a file that cannot be read: it raises [e]. *)
Definition unreadable (e : Exn) : string -> Result DataFrame :=
  fun _ => inl e.

(** The parse of a file that holds [table]. *)
Definition holding (table : DataFrame) : string -> Result DataFrame :=
  fun _ => inr table.

Definition no_columns : Exn :=
  Raise OtherError "No columns to parse from file".

Definition empty_upload : Web.UploadedFile :=
  {| Web.name := "new.csv"; Web.getvalue := [] |}.

(** A browser session that holds [people], loaded from [old.csv]. *)
Definition web_session : Web.SessionState :=
  {| Web.df := Some people; Web.last_uploaded_name := Some "old.csv";
     Web.show_stats := false; Web.show_plot := false; Web.plot_col := None |}.

(** A desktop session that holds [people]. *)
Definition desktop_session : Desktop.App :=
  Desktop.load_data (holding people) "/data/old.csv" Desktop.initial.

End Samples.

(** ** Notions used in the statements *)

Module Notions.
Import Py Pandas.

(** A number column: the values of an int64 or of a float64 column. *)
Inductive NumberColumn :=
| IntCol (values : list Z)
| FloatCol (values : list Float).

Definition series_of (c : NumberColumn) : Series :=
  match c with
  | IntCol vs => Int64 vs
  | FloatCol vs => Float64 vs
  end.

(** The number columns of a table with their values, in the table's order:
    the columns that parse as numbers. *)
Fixpoint numeric_columns (table : DataFrame) : list (string * NumberColumn) :=
  match table with
  | [] => []
  | (name, Int64 vs) :: rest => (name, IntCol vs) :: numeric_columns rest
  | (name, Float64 vs) :: rest => (name, FloatCol vs) :: numeric_columns rest
  | _ :: rest => numeric_columns rest
  end.

(** Their names. *)
Definition numeric_names (table : DataFrame) : list string :=
  map fst (numeric_columns table).

(** The range text of a number column: the greatest value minus the least,
    as the column's arithmetic has it, with two decimals; [nan] for a column
    without values. *)
Definition range_text `{Binary64} (c : NumberColumn) : string :=
  match c with
  | IntCol vs =>
      match int_max vs, int_min vs with
      | Some hi, Some lo => format_2f (Int (wrap64 (hi - lo)))
      | _, _ => "nan"
      end
  | FloatCol vs =>
      match float_max (drop_nan vs), float_min (drop_nan vs) with
      | Some hi, Some lo => format_2f (Flt (fsub hi lo))
      | _, _ => "nan"
      end
  end.

(** The row of the browser's range table, the line of the desktop's range
    section and the entry of the summary for a number column. *)
Definition range_row `{Binary64} (c : string * NumberColumn) : string * string :=
  (fst c, range_text (snd c)).

Definition range_line `{Binary64} (c : string * NumberColumn) : Desktop.Chunk :=
  Desktop.Text ("Range for **" ++ fst c ++ "**: " ++ range_text (snd c)
                  ++ Desktop.newline).

Definition summary_entry `{Binary64} (c : string * NumberColumn) : string * Stats :=
  (fst c, describe_series (series_of (snd c))).




(** NumPy's refusal to subtract two bools. *)
Definition boolean_subtract : Exn :=
  Raise TypeError "numpy boolean subtract, the `-` operator, is not supported, use the bitwise_xor, the `^` operator, or the logical_xor function instead.".

Definition is_load (ev : Desktop.Event) : bool :=
  match ev with
  | Desktop.PressLoad _ => true
  | _ => false
  end.

(** A run of the script with [f] in the uploader. *)
Definition rerun_with (f : Web.UploadedFile) (stats hist : bool) (index : nat)
  : Web.Rerun :=
  {| Web.uploaded_file := Some f; Web.stats_button := stats;
     Web.histogram_button := hist; Web.selected_index := index |}.

(** The desktop session with [col] in the column selector. *)
Definition selecting (col : string) (s : Desktop.App) : Desktop.App :=
  Desktop.set_col_select_var col s.

End Notions.

(** ** Sessions *)

Module Runs.
Import Py Pandas.

(** A browsing session: the script runs again at every interaction, on the
    session state the run before left. *)
Definition browse `{Binary64} `{Plotting}
    (decode_utf8 : list Byte.byte -> Result string)
    (read_csv : string -> Result DataFrame)
    (runs : list Web.Rerun) (s : Web.SessionState) : Web.SessionState :=
  fold_left (fun st r => fst (Web.script decode_utf8 read_csv r st)) runs s.

(** The summary table and the drawn histogram among the elements of a page. *)
Definition is_summary (e : Web.Element) : bool :=
  match e with
  | Web.Dataframe _ => true
  | _ => false
  end.

Definition is_plot (e : Web.Element) : bool :=
  match e with
  | Web.Pyplot _ => true
  | _ => false
  end.

Definition held {A} (o : option A) : bool :=
  match o with
  | Some _ => true
  | None => false
  end.

(** The path has a [/] in it. *)
Fixpoint has_slash (path : string) : bool :=
  match path with
  | EmptyString => false
  | String c rest => Ascii.eqb c "/" || has_slash rest
  end.

End Runs.

(** * Properties *)

Import Notions.

Import Runs.

Import Py Pandas.

(** ** Loading *)

Section General.
Context {fp : Binary64} {plt : Plotting}.

Lemma controls_df (r : Web.Rerun) (table : DataFrame) (s : Web.SessionState) :
  Web.df (fst (Web.controls r table s)) = Web.df s.
Proof.
  unfold Web.controls.
  destruct (Web.numerical_cols table); cbn;
    destruct (Web.stats_button r); try destruct (Web.histogram_button r);
    reflexivity.
Qed.

Lemma controls_last_uploaded_name (r : Web.Rerun) (table : DataFrame)
      (s : Web.SessionState) :
  Web.last_uploaded_name (fst (Web.controls r table s)) = Web.last_uploaded_name s.
Proof.
  unfold Web.controls.
  destruct (Web.numerical_cols table); cbn;
    destruct (Web.stats_button r); try destruct (Web.histogram_button r);
    reflexivity.
Qed.

Lemma analysis_stage_last_uploaded_name (r : Web.Rerun) (s : Web.SessionState) :
  Web.last_uploaded_name (fst (Web.analysis_stage r s)) = Web.last_uploaded_name s.
Proof.
  unfold Web.analysis_stage.
  destruct (Web.df s) as [table|]; [|reflexivity].
  pose proof (controls_last_uploaded_name r table s) as H.
  destruct (Web.controls r table s) as [s1 out1]; cbn in H.
  destruct (Web.output_area table s1); cbn. exact H.
Qed.

Lemma analysis_stage_df (r : Web.Rerun) (s : Web.SessionState) :
  Web.df (fst (Web.analysis_stage r s)) = Web.df s.
Proof.
  unfold Web.analysis_stage.
  destruct (Web.df s) as [table|] eqn:E; [|exact E].
  pose proof (controls_df r table s) as H.
  destruct (Web.controls r table s) as [s1 out1]; cbn in H.
  destruct (Web.output_area table s1); cbn. congruence.
Qed.

Section LoaderFacts.
Variable decode_utf8 : list Byte.byte -> Result string.
Variable read_csv : string -> Result DataFrame.

(** Whenever the loader runs on a file it puts exactly one message on the
    page, so a run of the loader can be told from its absence. *)
Lemma load_data_reports (f : Web.UploadedFile) (s : Web.SessionState) :
  exists message, snd (Web.load_data decode_utf8 read_csv (Some f) s) = [message].
Proof.
  unfold Web.load_data.
  destruct (text <- decode_utf8 (Web.getvalue f) ;; read_csv text);
    cbn; eexists; reflexivity.
Qed.

(** The table held after a load is a function of the file alone. *)
Lemma web_load_replaces (f : Web.UploadedFile) (s : Web.SessionState) :
  Web.df (fst (Web.load_data decode_utf8 read_csv (Some f) s)) =
  match (text <- decode_utf8 (Web.getvalue f) ;; read_csv text) with
  | inr table => Some table
  | inl _ => None
  end.
Proof.
  unfold Web.load_data.
  destruct (text <- decode_utf8 (Web.getvalue f) ;; read_csv text); reflexivity.
Qed.

(** What the file parses to: a table, or nothing. *)
Lemma upload_stage_state (f : Web.UploadedFile) (s : Web.SessionState) :
  fst (Web.upload_stage decode_utf8 read_csv (Some f) s) =
  if Web.file_changed f s
  then Web.set_last_uploaded_name (Web.name f)
         (Web.set_df (match (text <- decode_utf8 (Web.getvalue f) ;; read_csv text) with
                      | inr table => Some table
                      | inl _ => None
                      end) s)
  else s.
Proof.
  unfold Web.upload_stage, Web.load_data.
  destruct (Web.file_changed f s); [|reflexivity].
  destruct (text <- decode_utf8 (Web.getvalue f) ;; read_csv text); reflexivity.
Qed.


Lemma script_df (r : Web.Rerun) (s : Web.SessionState) :
  Web.df (fst (Web.script decode_utf8 read_csv r s)) =
  Web.df (fst (Web.upload_stage decode_utf8 read_csv (Web.uploaded_file r) s)).
Proof.
  unfold Web.script.
  destruct (Web.upload_stage _ _ _ s) as [s1 out1]; cbn.
  pose proof (analysis_stage_df r s1) as H.
  destruct (Web.analysis_stage r s1) as [s2 [out2 raised]]; cbn in *.
  exact H.
Qed.

Lemma script_last_uploaded_name (r : Web.Rerun) (s : Web.SessionState) :
  Web.last_uploaded_name (fst (Web.script decode_utf8 read_csv r s)) =
  Web.last_uploaded_name
    (fst (Web.upload_stage decode_utf8 read_csv (Web.uploaded_file r) s)).
Proof.
  unfold Web.script.
  destruct (Web.upload_stage _ _ _ s) as [s1 out1]; cbn.
  pose proof (analysis_stage_last_uploaded_name r s1) as H.
  destruct (Web.analysis_stage r s1) as [s2 [out2 raised]]; cbn in *.
  exact H.
Qed.


Lemma upload_stage_df (f : Web.UploadedFile) (s : Web.SessionState) :
  Web.df (fst (Web.upload_stage decode_utf8 read_csv (Some f) s)) = Web.df s \/
  Web.df (fst (Web.upload_stage decode_utf8 read_csv (Some f) s)) =
  Web.df (fst (Web.load_data decode_utf8 read_csv (Some f) s)).
Proof.
  unfold Web.upload_stage.
  destruct (Web.file_changed f s).
  - right. destruct (Web.load_data _ _ _ _); reflexivity.
  - left. reflexivity.
Qed.

End LoaderFacts.

Lemma desktop_show_statistics_df (s : Desktop.App) :
  Desktop.df (fst (Desktop.show_statistics s)) = Desktop.df s.
Proof.
  unfold Desktop.show_statistics.
  destruct (Desktop.df s) as [table|] eqn:E; cbn; [|exact E].
  destruct (describe table); cbn; [exact E|].
  destruct (Desktop.range_lines _ _); cbn; exact E.
Qed.

Lemma desktop_visualize_data_df (s : Desktop.App) :
  Desktop.df (fst (Desktop.visualize_data s)) = Desktop.df s.
Proof.
  unfold Desktop.visualize_data.
  destruct (Desktop.df s) as [table|] eqn:E; cbn; [|exact E].
  destruct (String.eqb _ _); cbn; [exact E|].
  destruct (negb (has_column _ _)); cbn; [exact E|].
  destruct (getitem _ _) as [e|col]; cbn; [exact E|].
  destruct (negb (is_numeric_dtype col)); cbn; [exact E|].
  destruct (hist col 20); cbn; exact E.
Qed.

(** C1, as the code has it.  When the parse fails, the loader clears the
    table: the browser session's [df] becomes [None] and one error message
    carrying the failure's description is put on the page; the desktop's
    global [df] becomes [None], both analysis buttons are disabled and a
    "Loading Error" box carries the description.  The table held before is
    not kept. *)
Theorem failed_load_clears_table :
  forall decode_utf8 read_text read_path f file_path e1 e2 ws ds,
    (text <- decode_utf8 (Web.getvalue f) ;; read_text text) = inl e1 ->
    file_path <> "" ->
    read_path file_path = inl e2 ->
    Web.load_data decode_utf8 read_text (Some f) ws =
      (Web.set_df None ws,
       [Web.Error ("Error loading file. Please check the format. Details: "
                   ++ description e1)])
    /\ Web.df (fst (Web.load_data decode_utf8 read_text (Some f) ws)) = None
    /\ Desktop.df (Desktop.load_data read_path file_path ds) = None
    /\ Desktop.analyze_button (Desktop.load_data read_path file_path ds) = false
    /\ Desktop.visualize_button (Desktop.load_data read_path file_path ds) = false
    /\ Desktop.message_boxes (Desktop.load_data read_path file_path ds) =
         Desktop.message_boxes ds
           ++ [("Loading Error",
                ("Could not load file. Details: " ++ description e2)%string)].
Proof.
  intros decode_utf8 read_text read_path f file_path e1 e2 ws ds Hweb Hpath Hdesk.
  unfold Web.load_data, Desktop.load_data.
  rewrite Hweb, Hdesk.
  apply String.eqb_neq in Hpath. rewrite Hpath.
  repeat split.
Qed.

(** ** Validation of the plotted column *)

Lemma has_column_getitem (table : DataFrame) (col : string) :
  has_column table col = true -> exists s, getitem table col = inr s.
Proof.
  unfold has_column, columns.
  induction table as [|[n s] rest IH]; cbn; [discriminate|].
  destruct (String.eqb col n); cbn; eauto.
Qed.

(** C2, as the code has it.  When the requested column name is empty, absent
    from the table, or names a column that is not numeric, the plotter draws
    nothing and reports one and the same message in every case: the browser
    front-end a warning, the desktop front-end an error box, whose plot area
    is left as it was. *)
Theorem invalid_column_single_message :
  forall table column_name ds,
    Desktop.df ds = Some table ->
    Desktop.col_select_var ds = column_name ->
    (column_name = ""
     \/ has_column table column_name = false
     \/ exists s, getitem table column_name = inr s /\ is_numeric_dtype s = false) ->
    Web.visualize_data table column_name =
      ([Web.Warning "Please select a valid numerical column to plot."], None)
    /\ Desktop.visualize_data ds =
         (Desktop.showerror "Error"
            "Please select a valid numerical column for visualization." ds, None)
    /\ Desktop.plot_frame (fst (Desktop.visualize_data ds)) = Desktop.plot_frame ds.
Proof.
  intros table column_name ds Hdf Hvar Hbad.
  assert (Hweb : Web.visualize_data table column_name = ([Web.invalid_column], None)).
  { unfold Web.visualize_data.
    destruct Hbad as [-> | [Habsent | (s & Hget & Hkind)]].
    - reflexivity.
    - rewrite Habsent. destruct (negb _); reflexivity.
    - rewrite Hget, Hkind.
      destruct (negb _); [destruct (has_column _ _)|]; reflexivity. }
  assert (Hdesk : Desktop.visualize_data ds =
                  (Desktop.showerror "Error" Desktop.invalid_column ds, None)).
  { unfold Desktop.visualize_data. rewrite Hdf, Hvar.
    destruct Hbad as [-> | [Habsent | (s & Hget & Hkind)]].
    - reflexivity.
    - rewrite Habsent. destruct (String.eqb _ _); reflexivity.
    - rewrite Hget, Hkind.
      destruct (String.eqb _ _); [|destruct (has_column _ _)]; reflexivity. }
  split; [exact Hweb|]. split; [exact Hdesk|].
  rewrite Hdesk. reflexivity.
Qed.

(** ** Loading twice, and what changes the table *)


(** C9.  The summarizer and the plotter leave the session's table as it is:
    in the browser front-end the whole analysis stage of the script (which
    calls both) ends with the table it started with, and so do the two desktop
    handlers and any sequence of desktop events without a load.  Only the
    loader changes the table, and what it leaves is the parse of the new file
    alone, or nothing. *)
Theorem analysis_leaves_table :
  forall decode_utf8 read_text read_path r f ws ds events file_path,
    Web.df (fst (Web.analysis_stage r ws)) = Web.df ws
    /\ Desktop.df (fst (Desktop.show_statistics ds)) = Desktop.df ds
    /\ Desktop.df (fst (Desktop.visualize_data ds)) = Desktop.df ds
    /\ Desktop.df (Desktop.mainloop read_path
                     (filter (fun ev => negb (is_load ev)) events) ds) = Desktop.df ds
    /\ Web.df (fst (Web.load_data decode_utf8 read_text (Some f) ws)) =
         match (text <- decode_utf8 (Web.getvalue f) ;; read_text text) with
         | inr table => Some table
         | inl _ => None
         end
    /\ Desktop.df (Desktop.load_data read_path file_path ds) =
         if String.eqb file_path "" then Desktop.df ds
         else match read_path file_path with
              | inr table => Some table
              | inl _ => None
              end.
Proof.
  intros decode_utf8 read_text read_path r f ws ds events file_path.
  split; [apply analysis_stage_df|].
  split; [apply desktop_show_statistics_df|].
  split; [apply desktop_visualize_data_df|].
  split; [|split].
  - unfold Desktop.mainloop.
    revert ds. induction events as [|ev rest IH]; intros ds; [reflexivity|].
    destruct ev; cbn; try apply IH; rewrite IH.
    + destruct (Desktop.analyze_button ds);
        [apply desktop_show_statistics_df|reflexivity].
    + destruct (Desktop.visualize_button ds);
        [apply desktop_visualize_data_df|reflexivity].
    + destruct (existsb _ _); reflexivity.
  - apply web_load_replaces.
  - unfold Desktop.load_data.
    destruct (String.eqb file_path ""); [reflexivity|].
    destruct (read_path file_path); reflexivity.
Qed.

(** C10.  In the browser front-end, when the session holds a table and the
    file in the uploader bears the name recorded in [last_uploaded_name], the
    upload stage does nothing: the session is returned as it was and nothing
    is put on the page (the loader always puts one message there), whatever
    the file's content and whatever it would parse to; the whole run of the
    script ends with the table held before. *)
Theorem same_name_skips_loader :
  forall decode_utf8 read_text file_name content table s stats hist index,
    Web.df s = Some table ->
    Web.last_uploaded_name s = Some file_name ->
    let f := {| Web.name := file_name; Web.getvalue := content |} in
    Web.upload_stage decode_utf8 read_text (Some f) s = (s, [])
    /\ snd (Web.load_data decode_utf8 read_text (Some f) s) <> []
    /\ Web.df (fst (Web.script decode_utf8 read_text
                      (rerun_with f stats hist index) s)) = Some table.
Proof.
  intros decode_utf8 read_text file_name content table s stats hist index
         Hdf Hlast f.
  assert (Hskip : Web.upload_stage decode_utf8 read_text (Some f) s = (s, [])).
  { unfold Web.upload_stage, Web.file_changed.
    rewrite Hdf, Hlast. cbn. now rewrite String.eqb_refl. }
  split; [exact Hskip|]. split.
  - destruct (load_data_reports decode_utf8 read_text f s) as [m Hm].
    rewrite Hm. discriminate.
  - rewrite script_df. cbn [rerun_with Web.uploaded_file].
    rewrite Hskip. exact Hdf.
Qed.

End General.

Section GeneralExamples.
#[local] Existing Instance Samples.exact.
#[local] Existing Instance Samples.headless.

Lemma failed_load_clears_table_witness :
  Web.df (fst (Web.load_data Samples.ascii_text (Samples.unreadable Samples.no_columns)
                 (Some Samples.empty_upload) Samples.web_session)) = None
  /\ Desktop.df (Desktop.load_data (Samples.unreadable Samples.no_columns)
                   "/data/new.csv" Samples.desktop_session) = None.
Proof.
  destruct (failed_load_clears_table
              Samples.ascii_text (Samples.unreadable Samples.no_columns)
              (Samples.unreadable Samples.no_columns)
              Samples.empty_upload "/data/new.csv"
              Samples.no_columns Samples.no_columns
              Samples.web_session Samples.desktop_session)
    as (_ & Hw & Hd & _).
  - reflexivity.
  - discriminate.
  - reflexivity.
  - split; [exact Hw | exact Hd].
Defined.

(** C1 as stated fails: a browser session and a desktop session both hold
    the table [people]; a file that cannot be parsed is loaded; afterwards
    neither session holds a table. *)
Lemma failed_load_keeps_table_counterexample :
  Web.df Samples.web_session = Some Samples.people
  /\ (text <- Samples.ascii_text (Web.getvalue Samples.empty_upload) ;;
      Samples.unreadable Samples.no_columns text) = inl Samples.no_columns
  /\ Web.df (fst (Web.load_data Samples.ascii_text
                    (Samples.unreadable Samples.no_columns)
                    (Some Samples.empty_upload) Samples.web_session))
     <> Web.df Samples.web_session
  /\ Desktop.df Samples.desktop_session = Some Samples.people
  /\ Desktop.df (Desktop.load_data (Samples.unreadable Samples.no_columns)
                   "/data/new.csv" Samples.desktop_session)
     <> Desktop.df Samples.desktop_session.
Proof.
  repeat split; cbn; discriminate.
Qed.

Lemma invalid_column_single_message_witness :
  Web.visualize_data Samples.people "name" =
    ([Web.Warning "Please select a valid numerical column to plot."], None)
  /\ Desktop.plot_frame
       (fst (Desktop.visualize_data (selecting "name" Samples.desktop_session))) = [].
Proof.
  destruct (invalid_column_single_message Samples.people "name"
              (selecting "name" Samples.desktop_session))
    as (Hw & _ & Hp).
  - reflexivity.
  - reflexivity.
  - right. right. eexists. split; reflexivity.
  - split; [exact Hw | exact Hp].
Defined.

(** C2 as stated fails: in [people] the column [zip] is absent and the column
    [name] is text, yet the plotter answers both requests with the same
    message, which names neither reason. *)
Lemma plotter_reason_counterexample :
  has_column Samples.people "zip" = false
  /\ getitem Samples.people "name" = inr (Object [Some "alice"; Some "bob"])
  /\ Web.visualize_data Samples.people "zip" =
       ([Web.Warning "Please select a valid numerical column to plot."], None)
  /\ Web.visualize_data Samples.people "name" = Web.visualize_data Samples.people "zip"
  /\ Desktop.message_boxes
       (fst (Desktop.visualize_data (selecting "zip" Samples.desktop_session))) =
       [("Error", "Please select a valid numerical column for visualization.")]
  /\ Desktop.message_boxes
       (fst (Desktop.visualize_data (selecting "name" Samples.desktop_session))) =
     Desktop.message_boxes
       (fst (Desktop.visualize_data (selecting "zip" Samples.desktop_session))).
Proof.
  repeat split.
Qed.

Lemma same_name_skips_loader_witness :
  Web.upload_stage Samples.ascii_text (Samples.holding Samples.five)
    (Some {| Web.name := "old.csv"; Web.getvalue := [] |}) Samples.web_session
  = (Samples.web_session, []).
Proof.
  destruct (same_name_skips_loader Samples.ascii_text (Samples.holding Samples.five)
              "old.csv" [] Samples.people Samples.web_session false false 0%nat)
    as (H & _).
  - reflexivity.
  - reflexivity.
  - exact H.
Defined.

End GeneralExamples.

(** ** The summary *)

Section Summary.
Context {fp : Binary64} {plt : Plotting}.

Lemma getitem_has_column (table : DataFrame) (col : string) (s : Series) :
  getitem table col = inr s -> has_column table col = true.
Proof.
  unfold has_column, columns.
  induction table as [|[n c] rest IH]; cbn; [discriminate|].
  destruct (String.eqb col n); cbn; auto.
Qed.

Lemma getitem_NoDup (table : DataFrame) (name : string) (s : Series) :
  NoDup (columns table) -> In (name, s) table -> getitem table name = inr s.
Proof.
  unfold columns.
  induction table as [|[n c] rest IH]; cbn; intros Hnd Hin; [contradiction|].
  inversion Hnd as [|? ? Hfresh Hrest]; subst.
  destruct Hin as [[= -> ->]|Hin].
  - now rewrite String.eqb_refl.
  - destruct (String.eqb_spec name n) as [->|_]; [|now apply IH].
    exfalso. apply Hfresh. apply in_map_iff. now exists (n, s).
Qed.

Lemma numeric_columns_filter (table : DataFrame) :
  filter number_column table =
  map (fun c => (fst c, series_of (snd c))) (numeric_columns table).
Proof.
  induction table as [|[n [vs|vs|vs|vs]] rest IH]; cbn; try exact IH;
    [reflexivity| |]; now rewrite IH.
Qed.

Lemma numeric_columns_In (table : DataFrame) (name : string) (c : NumberColumn) :
  In (name, c) (numeric_columns table) <-> In (name, series_of c) table.
Proof.
  induction table as [|[n [vs|vs|vs|vs]] rest IH]; cbn; [tauto| | | |].
  - rewrite IH. split; intros [H|H]; auto; left.
    + now inversion H.
    + destruct c; cbn in H; now inversion H.
  - rewrite IH. split; intros [H|H]; auto; left.
    + now inversion H.
    + destruct c; cbn in H; now inversion H.
  - rewrite IH. split; [auto|]. intros [H|H]; [|exact H].
    destruct c; discriminate.
  - rewrite IH. split; [auto|]. intros [H|H]; [|exact H].
    destruct c; discriminate.
Qed.

(** What the loop body computes for a number column. *)
Lemma range_of_numeric (c : NumberColumn) :
  exists n,
    (hi <- np_max (series_of c) ;; lo <- np_min (series_of c) ;; sub hi lo) = inr n
    /\ format_2f n = range_text c.
Proof.
  destruct c as [vs|vs]; cbn.
  - destruct vs as [|x r]; cbn; eexists; split; reflexivity.
  - destruct (drop_nan vs) as [|x r]; cbn; eexists; split; reflexivity.
Qed.

Lemma describe_numeric (table : DataFrame) :
  numeric_columns table <> [] ->
  describe table = inr (map summary_entry (numeric_columns table)).
Proof.
  intros Hsome. unfold describe.
  destruct table as [|c rest]; [now contradiction Hsome|].
  rewrite numeric_columns_filter.
  destruct (numeric_columns (c :: rest)) as [|d l]; [now contradiction Hsome|].
  cbn [map]. f_equal. cbn. f_equal. rewrite map_map. reflexivity.
Qed.

Section RangeLoop.
Variable table : DataFrame.
Variable cols : list (string * NumberColumn).
Hypothesis found :
  forall name c, In (name, c) cols -> getitem table name = inr (series_of c).

Lemma web_range_data :
  Web.range_data table (map fst cols) = inr (map range_row cols).
Proof.
  induction cols as [|[n c] rest IH]; [reflexivity|].
  cbn [map fst Web.range_data].
  rewrite (found n c) by now left.
  assert (IH' : Web.range_data table (map fst rest) = inr (map range_row rest))
    by (apply IH; intros name c' H; apply found; now right).
  destruct (range_of_numeric c) as (v & Hv & Htext).
  unfold Py.bind in *.
  destruct (np_max (series_of c)) as [e|hi]; [discriminate|].
  destruct (np_min (series_of c)) as [e|lo]; [discriminate|].
  rewrite Hv, IH'. unfold range_row at 2. cbn [fst snd Py.ret]. now rewrite Htext.
Qed.

Lemma desktop_range_lines :
  Desktop.range_lines table (map fst cols) = (map range_line cols, None).
Proof.
  induction cols as [|[n c] rest IH]; [reflexivity|].
  cbn [map fst Desktop.range_lines].
  rewrite (found n c) by now left.
  replace (is_numeric_dtype (series_of c)) with true by now destruct c.
  destruct (range_of_numeric c) as (v & Hv & Htext). rewrite Hv.
  rewrite IH by (intros name c' H; apply found; now right).
  unfold range_line at 2. cbn [fst snd]. now rewrite Htext.
Qed.
End RangeLoop.

Lemma numeric_columns_found (table : DataFrame) :
  NoDup (columns table) ->
  forall name c, In (name, c) (numeric_columns table) ->
                 getitem table name = inr (series_of c).
Proof.
  intros Hnd name c Hin.
  apply getitem_NoDup; [exact Hnd|]. now apply numeric_columns_In.
Qed.

Lemma summary_entry_names (cols : list (string * NumberColumn)) :
  map fst (map summary_entry cols) = map fst cols.
Proof.
  rewrite map_map. apply map_ext. reflexivity.
Qed.

Lemma range_row_names (cols : list (string * NumberColumn)) :
  map fst (map range_row cols) = map fst cols.
Proof.
  rewrite map_map. apply map_ext. reflexivity.
Qed.

Lemma web_summary (table : DataFrame) :
  NoDup (columns table) -> numeric_columns table <> [] ->
  Web.show_statistics table =
    ([Web.Subheader "📊 Descriptive Statistics (Pandas)";
      Web.Dataframe (map summary_entry (numeric_columns table));
      Web.Subheader "🔢 Additional NumPy Analysis (Range)";
      Web.Table (map range_row (numeric_columns table))], None).
Proof.
  intros Hnd Hsome. unfold Web.show_statistics.
  rewrite (describe_numeric table Hsome), summary_entry_names.
  rewrite (web_range_data table (numeric_columns table)
             (numeric_columns_found table Hnd)).
  destruct (numeric_columns table); [now contradiction Hsome|reflexivity].
Qed.

Lemma desktop_summary (table : DataFrame) (ds : Desktop.App) :
  NoDup (columns table) -> numeric_columns table <> [] ->
  Desktop.df ds = Some table ->
  Desktop.show_statistics ds =
    (Desktop.set_output
       ([Desktop.Text ("### Descriptive Statistics (Pandas) ###"
                         ++ Desktop.newline ++ Desktop.newline);
         Desktop.StatsTable (map summary_entry (numeric_columns table));
         Desktop.Text (Desktop.newline ++ Desktop.newline
                         ++ "### Additional NumPy Analysis (Range) ###"
                         ++ Desktop.newline)]
          ++ map range_line (numeric_columns table)) ds, None).
Proof.
  intros Hnd Hsome Hdf. unfold Desktop.show_statistics.
  rewrite Hdf, (describe_numeric table Hsome), summary_entry_names.
  rewrite (desktop_range_lines table (numeric_columns table)
             (numeric_columns_found table Hnd)).
  reflexivity.
Qed.

(** C5, as the code has it.  For a table with distinct column names and at
    least one numeric column (int64 or float64), the summary of both
    front-ends has one entry per numeric column and none for any other
    column, in the table's column order: the described statistics, and the
    range rows (browser) or range lines (desktop). *)
Theorem summary_lists_numeric_columns :
  forall table ds,
    NoDup (columns table) ->
    numeric_columns table <> [] ->
    Desktop.df ds = Some table ->
    Web.show_statistics table =
      ([Web.Subheader "📊 Descriptive Statistics (Pandas)";
        Web.Dataframe (map summary_entry (numeric_columns table));
        Web.Subheader "🔢 Additional NumPy Analysis (Range)";
        Web.Table (map range_row (numeric_columns table))], None)
    /\ Desktop.show_statistics ds =
         (Desktop.set_output
            ([Desktop.Text ("### Descriptive Statistics (Pandas) ###"
                              ++ Desktop.newline ++ Desktop.newline);
              Desktop.StatsTable (map summary_entry (numeric_columns table));
              Desktop.Text (Desktop.newline ++ Desktop.newline
                              ++ "### Additional NumPy Analysis (Range) ###"
                              ++ Desktop.newline)]
               ++ map range_line (numeric_columns table)) ds, None)
    /\ map fst (map summary_entry (numeric_columns table)) = numeric_names table
    /\ map fst (map range_row (numeric_columns table)) = numeric_names table
    /\ numeric_names table =
         map fst (filter (fun c => is_number_dtype (snd c)) table)
    /\ (forall name, In name (numeric_names table) <->
                     exists s, In (name, s) table /\ is_number_dtype s = true).
Proof.
  intros table ds Hnd Hsome Hdf.
  split; [now apply web_summary|]. split; [now apply desktop_summary|].
  unfold numeric_names.
  split; [apply summary_entry_names|]. split; [apply range_row_names|]. split.
  - change (fun c : string * Series => is_number_dtype (snd c)) with number_column.
    rewrite numeric_columns_filter, map_map. reflexivity.
  - intros name. rewrite in_map_iff. split.
    + intros ([n c] & <- & Hin). apply numeric_columns_In in Hin.
      exists (series_of c). split; [exact Hin|now destruct c].
    + intros ([vs|vs|vs|vs] & Hin & Hkind); try discriminate.
      * exists (name, IntCol vs). split; [reflexivity|now apply numeric_columns_In].
      * exists (name, FloatCol vs). split; [reflexivity|now apply numeric_columns_In].
Qed.

(** ** The range of a number column *)












Lemma describe_names (table : DataFrame) (stats : list (string * Stats)) :
  describe table = inr stats ->
  map fst stats = match numeric_names table with
                  | [] => columns table
                  | names => names
                  end.
Proof.
  unfold describe. destruct table as [|c rest] eqn:T; [discriminate|].
  rewrite <- T. clear T c rest.
  intros [= <-]. rewrite map_map. cbn [fst].
  unfold numeric_names. rewrite numeric_columns_filter.
  destruct (numeric_columns table); [reflexivity|].
  cbn [map fst]. f_equal. rewrite !map_map. reflexivity.
Qed.

Section Fallback.
Variable table : DataFrame.
Hypothesis distinct : NoDup (columns table).

(** The desktop's loop over columns that are not number columns: text is
    skipped, a bool column with a value stops the loop. *)
Lemma range_lines_text (cols : DataFrame) :
  (forall c, In c cols -> In c table) ->
  (forall c, In c cols -> is_numeric_dtype (snd c) = false) ->
  Desktop.range_lines table (map fst cols) = ([], None).
Proof.
  induction cols as [|[n s] rest IH]; intros Hsub Htext; [reflexivity|].
  cbn [map fst Desktop.range_lines].
  rewrite (getitem_NoDup table n s distinct) by (apply Hsub; now left).
  pose proof (Htext (n, s) (or_introl eq_refl)) as Hs. cbn [snd] in Hs.
  rewrite Hs.
  apply IH; intros c Hc; [apply Hsub|apply Htext]; now right.
Qed.

Lemma range_lines_bool (cols : DataFrame) :
  (forall c, In c cols -> In c table) ->
  (forall c, In c cols -> is_number_dtype (snd c) = false) ->
  (exists name b bs, In (name, Boolean (b :: bs)) cols) ->
  snd (Desktop.range_lines table (map fst cols)) = Some boolean_subtract.
Proof.
  induction cols as [|[n s] rest IH]; intros Hsub Hkind (name & b & bs & Hin);
    [contradiction|].
  cbn [map fst Desktop.range_lines].
  rewrite (getitem_NoDup table n s distinct) by (apply Hsub; now left).
  assert (Hrest : (exists name b bs, In (name, Boolean (b :: bs)) rest) ->
                  snd (Desktop.range_lines table (map fst rest))
                  = Some boolean_subtract).
  { apply IH; intros c Hc; [apply Hsub|apply Hkind]; now right. }
  pose proof (Hkind (n, s) (or_introl eq_refl)) as Hs.
  destruct s as [vs|vs|[|b0 bs0]|vs]; cbn in Hs; try discriminate;
    cbn [is_numeric_dtype].
  - (* a bool column without values *)
    cbn.
    destruct Hin as [H|H]; [discriminate|].
    destruct (Desktop.range_lines table (map fst rest)) as [lines raised] eqn:E.
    cbn. rewrite <- (Hrest (ex_intro _ name (ex_intro _ b (ex_intro _ bs H)))).
    reflexivity.
  - reflexivity.
  - destruct Hin as [H|H]; [discriminate|].
    apply Hrest. eauto.
Qed.
End Fallback.

(** X9.  The desktop summarizer on a table with distinct column names: it
    ends normally when the table has an int64 or float64 column, and when it
    has columns and all of them are text; it raises on a table without
    columns, after having cleared the text area, and it raises NumPy's error
    for the subtraction of bools when the table has no int64 or float64
    column but a bool column with a value, which passes the loop's test of the
    column's kind. *)
Theorem desktop_summary_exceptions :
  forall ds table,
    Desktop.df ds = Some table ->
    NoDup (columns table) ->
    (table = [] ->
     Desktop.show_statistics ds =
       (Desktop.set_output [] ds,
        Some (Raise ValueError "Cannot describe a DataFrame without columns")))
    /\ (numeric_columns table <> [] -> snd (Desktop.show_statistics ds) = None)
    /\ (table <> [] ->
        (forall c, In c table -> is_numeric_dtype (snd c) = false) ->
        snd (Desktop.show_statistics ds) = None)
    /\ (numeric_columns table = [] ->
        (exists name b bs, In (name, Boolean (b :: bs)) table) ->
        exists e, snd (Desktop.show_statistics ds) = Some e /\ kind e = TypeError).
Proof.
  intros ds table Hdf Hnd.
  assert (Hfallback : numeric_columns table = [] -> table <> [] ->
                      exists stats, describe table = inr stats
                                    /\ map fst stats = map fst table).
  { intros Hnone Hne. destruct (describe table) as [e|stats] eqn:D.
    - destruct table; [congruence|discriminate].
    - exists stats. split; [reflexivity|].
      rewrite (describe_names _ _ D). unfold numeric_names. now rewrite Hnone. }
  assert (Hkinds : numeric_columns table = [] ->
                   forall c, In c table -> is_number_dtype (snd c) = false).
  { intros Hnone [n s] Hin.
    destruct s as [vs|vs|vs|vs]; try reflexivity; exfalso.
    - apply (numeric_columns_In table n (IntCol vs)) in Hin.
      now rewrite Hnone in Hin.
    - apply (numeric_columns_In table n (FloatCol vs)) in Hin.
      now rewrite Hnone in Hin. }
  split; [|split; [|split]].
  - intros ->. unfold Desktop.show_statistics. now rewrite Hdf.
  - intros Hsome. now rewrite (desktop_summary table ds Hnd Hsome Hdf).
  - intros Hne Htext.
    assert (Hnone : numeric_columns table = []).
    { destruct (numeric_columns table) as [|[n c] l] eqn:E; [reflexivity|].
      assert (Hin : In (n, c) (numeric_columns table)) by (rewrite E; now left).
      apply numeric_columns_In in Hin. specialize (Htext _ Hin).
      destruct c; discriminate. }
    destruct (Hfallback Hnone Hne) as (stats & Hd & Hnames).
    unfold Desktop.show_statistics. rewrite Hdf, Hd, Hnames.
    rewrite (range_lines_text table Hnd table); auto.
  - intros Hnone Hbool.
    assert (Hne : table <> [])
      by (destruct Hbool as (n & b & bs & H); intros ->; contradiction).
    destruct (Hfallback Hnone Hne) as (stats & Hd & Hnames).
    unfold Desktop.show_statistics. rewrite Hdf, Hd, Hnames.
    pose proof (range_lines_bool table Hnd table (fun c H => H)
                  (Hkinds Hnone) Hbool) as Hraise.
    exists boolean_subtract. split; [|reflexivity].
    destruct (Desktop.range_lines table (map fst table)); exact Hraise.
Qed.

End Summary.

Section SummaryExamples.
#[local] Existing Instance Samples.exact.
#[local] Existing Instance Samples.headless.

Lemma summary_lists_numeric_columns_witness :
  Web.show_statistics Samples.people =
    ([Web.Subheader "📊 Descriptive Statistics (Pandas)";
      Web.Dataframe (map summary_entry (numeric_columns Samples.people));
      Web.Subheader "🔢 Additional NumPy Analysis (Range)";
      Web.Table (map range_row (numeric_columns Samples.people))], None).
Proof.
  destruct (summary_lists_numeric_columns Samples.people Samples.desktop_session)
    as (H & _).
  - repeat constructor; cbn; intuition discriminate.
  - discriminate.
  - reflexivity.
  - exact H.
Defined.

(** C5 as stated fails: [names_only] has no numeric column, yet the summary
    shown by both front-ends has an entry for its text column [name]. *)
Lemma text_column_listed_counterexample :
  numeric_names Samples.names_only = []
  /\ fst (Web.show_statistics Samples.names_only) =
       [Web.Subheader "📊 Descriptive Statistics (Pandas)";
        Web.Dataframe [("name", ObjStats 2 2)];
        Web.Subheader "🔢 Additional NumPy Analysis (Range)"]
  /\ In (Desktop.StatsTable [("name", ObjStats 2 2)])
        (Desktop.output_text
           (fst (Desktop.show_statistics
                   (Desktop.load_data (Samples.holding Samples.names_only)
                      "/data/names.csv" Desktop.initial)))).
Proof.
  split; [reflexivity|]. split; [reflexivity|].
  cbn. right. left. reflexivity.
Qed.



(** The values 1, 2, 3, 4, 5: count 5, least 1, greatest 5, and the range
    shown as 4.00. *)
Example five_values :
  Web.show_statistics Samples.five =
    ([Web.Subheader "📊 Descriptive Statistics (Pandas)";
      Web.Dataframe [("x", NumStats 5 (Finite 1) (Finite 5))];
      Web.Subheader "🔢 Additional NumPy Analysis (Range)";
      Web.Table [("x", "4.00")]], None).
Proof.
  reflexivity.
Qed.

(** C3 at a table whose only column is text.  The browser front-end lists the
    text column in the summary and then raises in the range loop; run through
    the script, the page carries the notice about numerical columns, then the
    summary table, and ends with the exception.  The desktop front-end, whose
    loop tests the column's kind, prints a summary of the text column, no
    range line and no notice. *)
Lemma text_only_summary_raises :
  numeric_names Samples.names_only = []
  /\ Web.show_statistics Samples.names_only =
       ([Web.Subheader "📊 Descriptive Statistics (Pandas)";
         Web.Dataframe [("name", ObjStats 2 2)];
         Web.Subheader "🔢 Additional NumPy Analysis (Range)"],
        Some (Raise TypeError "unsupported operand type(s) for -: 'str' and 'str'"))
  /\ snd (Web.script Samples.ascii_text (Samples.holding Samples.names_only)
            (rerun_with {| Web.name := "names.csv"; Web.getvalue := [] |}
               true false 0)
            Web.initial) =
       ([Web.Title "Data Analysis Web App";
         Web.Markdown "Upload a CSV file to analyze and visualize your data using **Pandas**, **NumPy**, and **Matplotlib**.";
         Web.Success "File loaded successfully: **names.csv**";
         Web.Header "Data Preview";
         Web.Preview Samples.names_only;
         Web.Warning "No numerical columns found for visualization.";
         Web.Markdown "---";
         Web.Subheader "📊 Descriptive Statistics (Pandas)";
         Web.Dataframe [("name", ObjStats 2 2)];
         Web.Subheader "🔢 Additional NumPy Analysis (Range)"],
        Some (Raise TypeError "unsupported operand type(s) for -: 'str' and 'str'"))
  /\ (let ds := Desktop.load_data (Samples.holding Samples.names_only)
                  "/data/names.csv" Desktop.initial in
      snd (Desktop.show_statistics ds) = None
      /\ Desktop.output_text (fst (Desktop.show_statistics ds)) =
           [Desktop.Text ("### Descriptive Statistics (Pandas) ###"
                            ++ Desktop.newline ++ Desktop.newline);
            Desktop.StatsTable [("name", ObjStats 2 2)];
            Desktop.Text (Desktop.newline ++ Desktop.newline
                            ++ "### Additional NumPy Analysis (Range) ###"
                            ++ Desktop.newline)]
      /\ Desktop.message_boxes (fst (Desktop.show_statistics ds)) = []).
Proof.
  repeat split.
Qed.

Lemma desktop_summary_exceptions_witness :
  exists e,
    snd (Desktop.show_statistics
           (Desktop.load_data (Samples.holding Samples.flags)
              "/data/flags.csv" Desktop.initial)) = Some e
    /\ kind e = TypeError.
Proof.
  destruct (desktop_summary_exceptions
              (Desktop.load_data (Samples.holding Samples.flags)
                 "/data/flags.csv" Desktop.initial)
              Samples.flags) as (_ & _ & _ & H).
  - reflexivity.
  - repeat constructor. cbn. intuition.
  - apply H; [reflexivity|].
    exists "flag", true, [false]. left. reflexivity.
Defined.

End SummaryExamples.

(** * Further properties of the two front-ends *)

Section Sessions.
Context {fp : Binary64} {plt : Plotting}.

(** ** The browser session across runs *)

Lemma upload_stage_flags decode_utf8 read_csv (uploaded : option Web.UploadedFile)
      (s : Web.SessionState) :
  let s' := fst (Web.upload_stage decode_utf8 read_csv uploaded s) in
  Web.show_stats s' = Web.show_stats s
  /\ Web.show_plot s' = Web.show_plot s
  /\ Web.plot_col s' = Web.plot_col s.
Proof.
  destruct uploaded as [f|]; [|now cbn].
  cbv zeta. rewrite upload_stage_state.
  destruct (Web.file_changed f s); now cbn.
Qed.

Lemma upload_stage_page decode_utf8 read_csv (uploaded : option Web.UploadedFile)
      (s : Web.SessionState) :
  let out := snd (Web.upload_stage decode_utf8 read_csv uploaded s) in
  existsb is_summary out = false /\ existsb is_plot out = false.
Proof.
  destruct uploaded as [f|]; [|now cbn].
  unfold Web.upload_stage, Web.load_data.
  destruct (Web.file_changed f s); [|now cbn].
  destruct (text <- decode_utf8 (Web.getvalue f) ;; read_csv text); now cbn.
Qed.

Lemma controls_exclusive (r : Web.Rerun) (table : DataFrame) (s : Web.SessionState) :
  Web.show_stats s && Web.show_plot s = false ->
  let s' := fst (Web.controls r table s) in
  Web.show_stats s' && Web.show_plot s' = false.
Proof.
  intros H. unfold Web.controls.
  destruct (Web.numerical_cols table); cbn;
    destruct (Web.stats_button r); try destruct (Web.histogram_button r);
    cbn; auto.
Qed.

Lemma controls_page (r : Web.Rerun) (table : DataFrame) (s : Web.SessionState) :
  let out := snd (Web.controls r table s) in
  existsb is_summary out = false /\ existsb is_plot out = false.
Proof.
  unfold Web.controls. destruct (Web.numerical_cols table); now cbn.
Qed.

Lemma show_statistics_page (table : DataFrame) :
  existsb is_plot (fst (Web.show_statistics table)) = false.
Proof.
  unfold Web.show_statistics.
  destruct (describe table) as [e|stats]; [reflexivity|].
  destruct (Web.range_data table (map fst stats)) as [e|[|row rows]]; reflexivity.
Qed.

Lemma visualize_data_page (table : DataFrame) (col : string) :
  existsb is_summary (fst (Web.visualize_data table col)) = false.
Proof.
  unfold Web.visualize_data.
  destruct (negb _); [|reflexivity].
  destruct (has_column table col); [|reflexivity].
  destruct (getitem table col) as [e|c]; [reflexivity|].
  destruct (is_numeric_dtype c); [|reflexivity].
  destruct (hist c 20); reflexivity.
Qed.

Lemma output_area_page (table : DataFrame) (s : Web.SessionState) :
  Web.show_stats s && Web.show_plot s = false ->
  let out := fst (Web.output_area table s) in
  existsb is_summary out && existsb is_plot out = false.
Proof.
  intros H. unfold Web.output_area.
  destruct (Web.show_stats s); cbn in H.
  - rewrite H. pose proof (show_statistics_page table) as Hp.
    destruct (Web.show_statistics table) as [out1 [e|]]; cbn in *;
      rewrite Hp; apply andb_false_r.
  - destruct (Web.show_plot s); [|reflexivity].
    destruct (Web.plot_col s) as [col|]; [|reflexivity].
    destruct (String.eqb col ""); [reflexivity|].
    pose proof (visualize_data_page table col) as Hp.
    destruct (Web.visualize_data table col) as [out2 r2]; cbn in *.
    now rewrite Hp.
Qed.

Lemma script_exclusive decode_utf8 read_csv (r : Web.Rerun) (s : Web.SessionState) :
  Web.show_stats s && Web.show_plot s = false ->
  let result := Web.script decode_utf8 read_csv r s in
  Web.show_stats (fst result) && Web.show_plot (fst result) = false
  /\ existsb is_summary (fst (snd result)) && existsb is_plot (fst (snd result)) = false.
Proof.
  intros H. unfold Web.script.
  destruct (upload_stage_flags decode_utf8 read_csv (Web.uploaded_file r) s)
    as (Hs & Hp & _).
  destruct (upload_stage_page decode_utf8 read_csv (Web.uploaded_file r) s)
    as (Hu1 & Hu2).
  destruct (Web.upload_stage decode_utf8 read_csv (Web.uploaded_file r) s)
    as [s1 out1]; cbn [fst snd] in *.
  rewrite <- Hs, <- Hp in H. clear Hs Hp.
  unfold Web.analysis_stage.
  destruct (Web.df s1) as [table|].
  - pose proof (controls_exclusive r table s1 H) as Hc.
    destruct (controls_page r table s1) as (Hc1 & Hc2).
    destruct (Web.controls r table s1) as [s2 out2]; cbn [fst snd] in *.
    pose proof (output_area_page table s2 Hc) as Ho.
    destruct (Web.output_area table s2) as [out3 raised]; cbn [fst snd] in *.
    split; [exact Hc|].
    cbn [app existsb is_summary is_plot orb].
    do 3 (rewrite ?existsb_app; cbn [existsb is_summary is_plot orb]).
    rewrite Hu1, Hu2, Hc1, Hc2. exact Ho.
  - cbn [fst snd]. split; [exact H|].
    cbn [app existsb is_summary is_plot orb].
    do 2 (rewrite ?existsb_app; cbn [existsb is_summary is_plot orb]).
    rewrite Hu1, Hu2. reflexivity.
Qed.

(** X1.  In a browsing session that starts from the initial state, the two
    views exclude each other: after any sequence of runs the session never
    asks for both the statistics and the histogram, and no page shows both the
    summary table and a drawn histogram. *)
Theorem views_exclude_each_other :
  forall decode_utf8 read_csv runs r,
    let s := browse decode_utf8 read_csv runs Web.initial in
    let page := fst (snd (Web.script decode_utf8 read_csv r s)) in
    Web.show_stats s && Web.show_plot s = false
    /\ existsb is_summary page && existsb is_plot page = false.
Proof.
  intros decode_utf8 read_csv runs r.
  assert (Hinv : forall s0,
             Web.show_stats s0 && Web.show_plot s0 = false ->
             Web.show_stats (browse decode_utf8 read_csv runs s0)
             && Web.show_plot (browse decode_utf8 read_csv runs s0) = false).
  { unfold browse. induction runs as [|r0 rest IH]; intros s0 H0; [exact H0|].
    cbn [fold_left]. apply IH.
    apply (script_exclusive decode_utf8 read_csv r0 s0 H0). }
  cbv zeta. split; [now apply Hinv|].
  apply script_exclusive. now apply Hinv.
Qed.

(** X11.  A run in which no button is pressed and the uploader is empty, or
    holds a file that does not count as changed, leaves the whole session
    state as it was. *)
Theorem idle_run_keeps_state :
  forall decode_utf8 read_csv r s,
    Web.stats_button r = false ->
    Web.histogram_button r = false ->
    match Web.uploaded_file r with
    | None => True
    | Some f => Web.file_changed f s = false
    end ->
    fst (Web.script decode_utf8 read_csv r s) = s.
Proof.
  intros decode_utf8 read_csv r s Hstats Hhist Hfile. unfold Web.script.
  assert (Hup : Web.upload_stage decode_utf8 read_csv (Web.uploaded_file r) s = (s, [])).
  { destruct (Web.uploaded_file r) as [f|]; [|reflexivity].
    unfold Web.upload_stage. now rewrite Hfile. }
  rewrite Hup. unfold Web.analysis_stage.
  destruct (Web.df s) as [table|]; [|reflexivity].
  unfold Web.controls. rewrite Hstats, Hhist.
  destruct (Web.numerical_cols table);
    destruct (Web.output_area table s); reflexivity.
Qed.

(** ** The column selector *)

Lemma numerical_col_numeric (table : DataFrame) (col : string) :
  In col (Web.numerical_cols table) ->
  has_column table col = true
  /\ exists c, getitem table col = inr c /\ is_numeric_dtype c = true.
Proof.
  unfold Web.numerical_cols. intros H. apply filter_In in H. destruct H as [Hin Hnum].
  split.
  - unfold has_column. apply existsb_exists. exists col.
    split; [exact Hin|apply String.eqb_refl].
  - destruct (getitem table col) as [e|c]; [discriminate|].
    now exists c.
Qed.

(** X5.  In the browser front-end, pressing "Generate Histogram" plots, in
    that same run, the column at the select box's position among the columns
    offered: that column passes the plotter's validation, so the page carries
    the heading and then the figure that the histogram call returns, or ends
    with the exception that call raises; it never carries the validation
    warning.  (The column's name is taken to be non-empty.) *)
Theorem histogram_button_draws :
  forall r s table,
    Web.df s = Some table ->
    Web.histogram_button r = true ->
    (Web.selected_index r < List.length (Web.numerical_cols table))%nat ->
    let col := nth (Web.selected_index r) (Web.numerical_cols table) "" in
    col <> "" ->
    exists c,
      getitem table col = inr c
      /\ is_numeric_dtype c = true
      /\ Web.plot_col (fst (Web.analysis_stage r s)) = Some col
      /\ Web.show_plot (fst (Web.analysis_stage r s)) = true
      /\ Web.show_stats (fst (Web.analysis_stage r s)) = false
      /\ snd (Web.analysis_stage r s) =
           match hist c 20 with
           | inr h =>
               ([Web.Header "Data Preview"; Web.Preview (head table);
                 Web.Markdown "---";
                 Web.Subheader ("📈 Histogram of **" ++ col ++ "**");
                 Web.Pyplot {| Web.title := "Histogram of " ++ col;
                               Web.xlabel := col;
                               Web.ylabel := "Frequency";
                               Web.bars := h |}], None)
           | inl e =>
               ([Web.Header "Data Preview"; Web.Preview (head table);
                 Web.Markdown "---";
                 Web.Subheader ("📈 Histogram of **" ++ col ++ "**")], Some e)
           end.
Proof.
  intros r s table Hdf Hhist Hindex col Hnamed.
  destruct (Web.numerical_cols table) as [|first rest] eqn:Hcols;
    [cbn in Hindex; lia|].
  assert (Hin : In col (first :: rest)) by (subst col; now apply nth_In).
  assert (Hne : String.eqb col "" = false) by now apply String.eqb_neq.
  rewrite <- Hcols in Hin.
  destruct (numerical_col_numeric table col Hin) as (Hhas & c & Hget & Hkind).
  exists c. split; [exact Hget|]. split; [exact Hkind|].
  assert (Hctl : Web.controls r table s =
                 (Web.press_histogram col
                    (if Web.stats_button r then Web.press_stats s else s), [])).
  { unfold Web.controls. rewrite Hcols, Hhist. subst col.
    now rewrite (nth_indep (first :: rest) first "" Hindex). }
  unfold Web.analysis_stage. rewrite Hdf, Hctl.
  unfold Web.output_area, Web.visualize_data.
  cbn [Web.press_histogram Web.show_stats Web.show_plot Web.plot_col].
  rewrite Hne, Hhas, Hget, Hkind. cbn.
  destruct (hist c 20); cbn; repeat split.
Qed.

(** ** The uploader's file across runs *)

(** X13.  After any run of the script with a file in the uploader, the
    session's [last_uploaded_name] is that file's name, whether the loader ran
    or was skipped. *)
Theorem uploader_name_is_recorded :
  forall decode_utf8 read_csv f stats hist index s,
    Web.last_uploaded_name
      (fst (Web.script decode_utf8 read_csv (rerun_with f stats hist index) s))
    = Some (Web.name f).
Proof.
  intros. rewrite script_last_uploaded_name. cbn [rerun_with Web.uploaded_file].
  rewrite upload_stage_state.
  destruct (Web.file_changed f s) eqn:G; [reflexivity|].
  unfold Web.file_changed in G. apply orb_false_elim in G. destruct G as [_ G].
  apply negb_false_iff in G.
  destruct (Web.last_uploaded_name s) as [n|]; [|discriminate].
  apply String.eqb_eq in G. now rewrite G.
Qed.

Lemma script_failed_load decode_utf8 read_csv f e stats hist index
      (s : Web.SessionState) :
  (text <- decode_utf8 (Web.getvalue f) ;; read_csv text) = inl e ->
  Web.file_changed f s = true ->
  Web.script decode_utf8 read_csv (rerun_with f stats hist index) s =
    (Web.set_last_uploaded_name (Web.name f) (Web.set_df None s),
     ([Web.Title "Data Analysis Web App";
       Web.Markdown "Upload a CSV file to analyze and visualize your data using **Pandas**, **NumPy**, and **Matplotlib**.";
       Web.Error ("Error loading file. Please check the format. Details: "
                  ++ description e);
       Web.Info "Upload a CSV file above to begin the analysis."], None)).
Proof.
  intros Hfail Hchanged.
  unfold Web.script, Web.upload_stage, Web.load_data.
  cbn [rerun_with Web.uploaded_file]. rewrite Hchanged, Hfail. reflexivity.
Qed.

(** X7.  A file that fails to parse is parsed again at every run while it
    stays in the uploader: once the loader has run on it, each further run
    with the same file reports the same error again, shows nothing else but
    the invitation to upload, and ends without a table. *)
Theorem failed_file_is_reported_every_run :
  forall decode_utf8 read_csv f e s stats1 hist1 index1 stats2 hist2 index2,
    (text <- decode_utf8 (Web.getvalue f) ;; read_csv text) = inl e ->
    Web.file_changed f s = true ->
    let s1 := fst (Web.script decode_utf8 read_csv
                     (rerun_with f stats1 hist1 index1) s) in
    let again := Web.script decode_utf8 read_csv
                   (rerun_with f stats2 hist2 index2) s1 in
    Web.df s1 = None
    /\ Web.df (fst again) = None
    /\ snd again =
         ([Web.Title "Data Analysis Web App";
           Web.Markdown "Upload a CSV file to analyze and visualize your data using **Pandas**, **NumPy**, and **Matplotlib**.";
           Web.Error ("Error loading file. Please check the format. Details: "
                      ++ description e);
           Web.Info "Upload a CSV file above to begin the analysis."], None).
Proof.
  intros decode_utf8 read_csv f e s stats1 hist1 index1 stats2 hist2 index2
         Hfail Hchanged s1 again.
  assert (H1 : Web.df s1 = None)
    by (subst s1; now rewrite (script_failed_load _ _ _ e _ _ _ s Hfail Hchanged)).
  assert (Hagain : Web.file_changed f s1 = true)
    by (unfold Web.file_changed; now rewrite H1).
  subst again. rewrite (script_failed_load _ _ _ e _ _ _ s1 Hfail Hagain).
  repeat split. exact H1.
Qed.

(** ** The desktop session across events *)

(** A property that holds at the start and that every handler keeps holds
    after any sequence of events. *)
Lemma mainloop_invariant (read_csv : string -> Result DataFrame)
      (P : Desktop.App -> Prop) :
  (forall ev s, P s -> P (Desktop.handle read_csv ev s)) ->
  forall events s, P s -> P (Desktop.mainloop read_csv events s).
Proof.
  intros Hstep. unfold Desktop.mainloop.
  induction events as [|ev rest IH]; intros s Hs; [exact Hs|].
  cbn [fold_left]. apply IH. now apply Hstep.
Qed.

Lemma desktop_show_statistics_frame (s : Desktop.App) :
  let s' := fst (Desktop.show_statistics s) in
  Desktop.analyze_button s' = Desktop.analyze_button s
  /\ Desktop.visualize_button s' = Desktop.visualize_button s
  /\ Desktop.col_select_var s' = Desktop.col_select_var s
  /\ Desktop.col_select_menu s' = Desktop.col_select_menu s
  /\ Desktop.plot_frame s' = Desktop.plot_frame s
  /\ (Desktop.df s <> None -> Desktop.message_boxes s' = Desktop.message_boxes s).
Proof.
  unfold Desktop.show_statistics.
  destruct (Desktop.df s) as [table|]; cbn.
  - destruct (describe table); cbn; [now repeat split|].
    destruct (Desktop.range_lines _ _); cbn; now repeat split.
  - repeat split. congruence.
Qed.

Lemma desktop_visualize_data_frame (s : Desktop.App) :
  let s' := fst (Desktop.visualize_data s) in
  Desktop.analyze_button s' = Desktop.analyze_button s
  /\ Desktop.visualize_button s' = Desktop.visualize_button s
  /\ Desktop.col_select_var s' = Desktop.col_select_var s
  /\ Desktop.col_select_menu s' = Desktop.col_select_menu s
  /\ (List.length (Desktop.plot_frame s) <= 1 ->
      List.length (Desktop.plot_frame s') <= 1)%nat
  /\ (Desktop.df s <> None ->
      Desktop.message_boxes s' = Desktop.message_boxes s
      \/ Desktop.message_boxes s' =
           Desktop.message_boxes s ++ [("Error", Desktop.invalid_column)]).
Proof.
  unfold Desktop.visualize_data.
  destruct (Desktop.df s) as [table|]; cbn.
  - destruct (String.eqb _ _); cbn; [repeat split; auto|].
    destruct (negb (has_column _ _)); cbn; [repeat split; auto|].
    destruct (getitem _ _) as [e|col]; cbn; [repeat split; auto|].
    destruct (negb (is_numeric_dtype col)); cbn; [repeat split; auto|].
    destruct (hist col 20); cbn; repeat split; auto.
  - repeat split; auto. congruence.
Qed.

(** X3.  In the desktop front-end, after any sequence of events from the
    start, the two analysis buttons are enabled exactly when a table is held.
    The handlers' own check for a missing table therefore never fires: the box
    "Please load a dataset first." is never shown. *)
Theorem desktop_buttons_follow_table :
  forall read_csv events,
    let s := Desktop.mainloop read_csv events Desktop.initial in
    Desktop.analyze_button s = held (Desktop.df s)
    /\ Desktop.visualize_button s = held (Desktop.df s)
    /\ ~ In ("Error", "Please load a dataset first.") (Desktop.message_boxes s).
Proof.
  intros read_csv events.
  apply (mainloop_invariant read_csv
           (fun s => Desktop.analyze_button s = held (Desktop.df s)
                     /\ Desktop.visualize_button s = held (Desktop.df s)
                     /\ ~ In ("Error", "Please load a dataset first.")
                          (Desktop.message_boxes s)));
    [|cbn; intuition].
  intros ev s (Ha & Hv & Hbox). destruct ev as [path| | |col]; cbn [Desktop.handle].
  - unfold Desktop.load_data.
    destruct (String.eqb path ""); [now repeat split|].
    destruct (read_csv path); cbn; repeat split; auto.
    intros Hin. apply in_app_or in Hin. destruct Hin as [Hin|[Hin|[]]]; [auto|].
    discriminate.
  - destruct (Desktop.analyze_button s) eqn:E; rewrite <- E in Ha; [|auto].
    assert (Hheld : Desktop.df s <> None)
      by (intros Hnone; rewrite Hnone, E in Ha; discriminate).
    destruct (desktop_show_statistics_frame s) as (H1 & H2 & _ & _ & _ & H6).
    rewrite desktop_show_statistics_df, H1, H2, (H6 Hheld). auto.
  - destruct (Desktop.visualize_button s) eqn:E; rewrite <- E in Hv; [|auto].
    assert (Hheld : Desktop.df s <> None)
      by (intros Hnone; rewrite Hnone, E in Hv; discriminate).
    destruct (desktop_visualize_data_frame s) as (H1 & H2 & _ & _ & _ & H6).
    rewrite desktop_visualize_data_df, H1, H2. repeat split; auto.
    destruct (H6 Hheld) as [->| ->]; [exact Hbox|].
    intros Hin. apply in_app_or in Hin. destruct Hin as [Hin|[Hin|[]]]; [auto|].
    discriminate.
  - destruct (existsb _ _); now repeat split.
Qed.

(** X12.  The plot area of the desktop front-end never holds more than one
    figure: each successful plot replaces what was drawn before. *)
Theorem desktop_plot_area_single_figure :
  forall read_csv events,
    (List.length (Desktop.plot_frame
                    (Desktop.mainloop read_csv events Desktop.initial)) <= 1)%nat.
Proof.
  intros read_csv events.
  apply (mainloop_invariant read_csv
           (fun s => (List.length (Desktop.plot_frame s) <= 1)%nat));
    [|cbn; lia].
  intros ev s H. destruct ev as [path| | |col]; cbn [Desktop.handle].
  - unfold Desktop.load_data.
    destruct (String.eqb path ""); [exact H|].
    destruct (read_csv path); exact H.
  - destruct (Desktop.analyze_button s); [|exact H].
    destruct (desktop_show_statistics_frame s) as (_ & _ & _ & _ & H5 & _).
    now rewrite H5.
  - destruct (Desktop.visualize_button s); [|exact H].
    destruct (desktop_visualize_data_frame s) as (_ & _ & _ & _ & H5 & _).
    now apply H5.
  - destruct (existsb _ _); exact H.
Qed.

Lemma desktop_numerical_col_numeric (table : DataFrame) (col : string) :
  In col (Desktop.numerical_cols table) ->
  has_column table col = true
  /\ exists c, getitem table col = inr c /\ is_numeric_dtype c = true.
Proof.
  exact (numerical_col_numeric table col).
Qed.

(** X4.  In the desktop front-end, after any sequence of events from the
    start, the column menu lists the columns of the table held that pass the
    plotter's test of kind, and a non-empty selection names one of them:
    pressing "Plot Histogram" then passes the validation, shows no error box
    and calls the histogram on that column; the plot area then holds the
    figure it returns, or nothing when the call raises. *)
Theorem desktop_selection_passes_validation :
  forall read_csv events table,
    let s := Desktop.mainloop read_csv events Desktop.initial in
    Desktop.df s = Some table ->
    Desktop.col_select_menu s = Desktop.numerical_cols table
    /\ (Desktop.col_select_var s <> "" ->
        exists c,
          getitem table (Desktop.col_select_var s) = inr c
          /\ is_numeric_dtype c = true
          /\ Desktop.message_boxes (fst (Desktop.visualize_data s))
             = Desktop.message_boxes s
          /\ Desktop.visualize_data s =
               match hist c 20 with
               | inr h =>
                   (Desktop.set_plot
                      [{| Desktop.title := "Histogram of " ++ Desktop.col_select_var s;
                          Desktop.xlabel := Desktop.col_select_var s;
                          Desktop.ylabel := "Frequency";
                          Desktop.bars := h |}] s, None)
               | inl e => (Desktop.set_plot [] s, Some e)
               end).
Proof.
  intros read_csv events table s Hdf.
  assert (Hinv : match Desktop.df s with
                 | Some t =>
                     Desktop.col_select_menu s = Desktop.numerical_cols t
                     /\ (Desktop.col_select_var s = ""
                         \/ In (Desktop.col_select_var s) (Desktop.col_select_menu s))
                 | None => True
                 end).
  { subst s. apply mainloop_invariant; [|exact I].
    clear. intros ev s H. destruct ev as [path| | |col]; cbn [Desktop.handle].
    - unfold Desktop.load_data.
      destruct (String.eqb path ""); [exact H|].
      destruct (read_csv path) as [e|t]; cbn; [exact I|].
      split; [reflexivity|].
      destruct (Desktop.numerical_cols t); cbn; auto.
    - destruct (Desktop.analyze_button s); [|exact H].
      destruct (desktop_show_statistics_frame s) as (_ & _ & H3 & H4 & _).
      now rewrite desktop_show_statistics_df, H3, H4.
    - destruct (Desktop.visualize_button s); [|exact H].
      destruct (desktop_visualize_data_frame s) as (_ & _ & H3 & H4 & _).
      now rewrite desktop_visualize_data_df, H3, H4.
    - destruct (existsb (String.eqb col) (Desktop.col_select_menu s)) eqn:E;
        [|exact H].
      cbn. destruct (Desktop.df s); [|exact I].
      destruct H as [Hmenu _]. split; [exact Hmenu|]. right.
      apply existsb_exists in E. destruct E as (c & Hc & Heq).
      apply String.eqb_eq in Heq. now subst c. }
  rewrite Hdf in Hinv. destruct Hinv as [Hmenu Hvar].
  split; [exact Hmenu|]. intros Hne.
  destruct Hvar as [Hempty|Hin]; [contradiction|].
  rewrite Hmenu in Hin.
  destruct (desktop_numerical_col_numeric table _ Hin) as (Hhas & c & Hget & Hkind).
  exists c. split; [exact Hget|]. split; [exact Hkind|].
  unfold Desktop.visualize_data. rewrite Hdf.
  apply String.eqb_neq in Hne. rewrite Hne, Hhas, Hget, Hkind. cbn.
  destruct (hist c 20); split; reflexivity.
Qed.

(** ** The file name in the status line *)

Lemma last_segment_no_slash (acc path : string) :
  has_slash path = false -> Desktop.last_segment acc path = (acc ++ path)%string.
Proof.
  revert acc. induction path as [|c rest IH]; intros acc H; cbn in *.
  - symmetry. clear. induction acc as [|a acc IH]; cbn; congruence.
  - apply orb_false_elim in H. destruct H as [Hc Hrest].
    rewrite Hc, IH by exact Hrest.
    clear. induction acc as [|a acc IH]; cbn; congruence.
Qed.

Lemma last_segment_after_slash (acc dir file : string) :
  has_slash file = false ->
  Desktop.last_segment acc (dir ++ "/" ++ file)%string = file.
Proof.
  intros Hfile. revert acc. induction dir as [|c rest IH]; intros acc; cbn.
  - now rewrite last_segment_no_slash.
  - destruct (Ascii.eqb c "/"); apply IH.
Qed.

Lemma last_segment_has_no_slash (acc path : string) :
  has_slash acc = false -> has_slash (Desktop.last_segment acc path) = false.
Proof.
  revert acc. induction path as [|c rest IH]; intros acc Hacc; cbn; [exact Hacc|].
  destruct (Ascii.eqb c "/") eqn:E; apply IH; [reflexivity|].
  clear IH. induction acc as [|a acc IHa]; cbn in *.
  - now rewrite E.
  - apply orb_false_elim in Hacc. destruct Hacc as [Ha Hacc].
    rewrite Ha. cbn. now apply IHa.
Qed.

(** X6.  After a successful load the desktop status line names the file
    without its directories: for a path [dir/file] whose last part has no
    slash it reads "File loaded: file"; whatever the path, the name shown has
    no slash in it. *)
Theorem status_line_shows_file_name :
  forall read_csv dir file file_path table s,
    has_slash file = false ->
    read_csv (dir ++ "/" ++ file)%string = inr table ->
    Desktop.status_label (Desktop.load_data read_csv (dir ++ "/" ++ file)%string s) =
      (("File loaded: " ++ file)%string, Desktop.Green)
    /\ has_slash (Desktop.last_segment "" file_path) = false.
Proof.
  intros read_csv dir file file_path table s Hfile Hread.
  split; [|now apply last_segment_has_no_slash].
  unfold Desktop.load_data.
  assert (Hpath : String.eqb (dir ++ "/" ++ file) "" = false).
  { apply String.eqb_neq. destruct dir; discriminate. }
  rewrite Hpath, Hread. cbn [Desktop.status_label].
  now rewrite last_segment_after_slash.
Qed.

End Sessions.

Section SessionExamples.
#[local] Existing Instance Samples.exact.
#[local] Existing Instance Samples.headless.

Lemma idle_run_keeps_state_witness :
  fst (Web.script Samples.ascii_text (Samples.holding Samples.five)
         {| Web.uploaded_file := Some {| Web.name := "old.csv"; Web.getvalue := [] |};
            Web.stats_button := false; Web.histogram_button := false;
            Web.selected_index := 0 |}
         Samples.web_session) = Samples.web_session.
Proof.
  apply idle_run_keeps_state; reflexivity.
Defined.

Lemma histogram_button_draws_witness :
  Web.plot_col
    (fst (Web.analysis_stage
            {| Web.uploaded_file := None; Web.stats_button := false;
               Web.histogram_button := true; Web.selected_index := 0 |}
            Samples.web_session)) = Some "age".
Proof.
  destruct (histogram_button_draws
              {| Web.uploaded_file := None; Web.stats_button := false;
                 Web.histogram_button := true; Web.selected_index := 0 |}
              Samples.web_session Samples.people)
    as (c & _ & _ & H & _).
  - reflexivity.
  - reflexivity.
  - cbn. lia.
  - discriminate.
  - exact H.
Defined.

Lemma failed_file_is_reported_every_run_witness :
  Web.df (fst (Web.script Samples.ascii_text (Samples.unreadable Samples.no_columns)
                 (rerun_with Samples.empty_upload false false 0)
                 (fst (Web.script Samples.ascii_text
                         (Samples.unreadable Samples.no_columns)
                         (rerun_with Samples.empty_upload false false 0)
                         Samples.web_session)))) = None.
Proof.
  destruct (failed_file_is_reported_every_run
              Samples.ascii_text (Samples.unreadable Samples.no_columns)
              Samples.empty_upload Samples.no_columns Samples.web_session
              false false 0%nat false false 0%nat) as (_ & H & _).
  - reflexivity.
  - reflexivity.
  - exact H.
Defined.

Lemma desktop_selection_passes_validation_witness :
  Desktop.col_select_menu
    (Desktop.mainloop (Samples.holding Samples.people)
       [Desktop.PressLoad "/data/old.csv"; Desktop.PressStatistics] Desktop.initial)
  = Desktop.numerical_cols Samples.people.
Proof.
  destruct (desktop_selection_passes_validation (Samples.holding Samples.people)
              [Desktop.PressLoad "/data/old.csv"; Desktop.PressStatistics]
              Samples.people) as [H _].
  - reflexivity.
  - exact H.
Defined.

Lemma status_line_shows_file_name_witness :
  Desktop.status_label
    (Desktop.load_data (Samples.holding Samples.people) "/data/old.csv" Desktop.initial)
  = ("File loaded: old.csv", Desktop.Green).
Proof.
  destruct (status_line_shows_file_name (Samples.holding Samples.people)
              "/data" "old.csv" "" Samples.people Desktop.initial) as [H _].
  - reflexivity.
  - reflexivity.
  - exact H.
Defined.

End SessionExamples.
